(** * Payment flow orchestration: card/wallet element flows, the
    alternative-wallet (PayPal) settlement service and the order client.

    Shallow embedding of
      - processor/src/services/commerce-tools/order-client.ts
      - processor/src/services/paypal-payment.service.ts (and its guarded variant)
      - processor/src/routes/paypal-payment.route.ts
      - enabler/src/components/payment-flows.ts
      - enabler/src/components/payment-element.ts

    Asynchronous code is sequential between awaits, so every [async]
    function is a computation in a state-and-exception monad.  The state is a
    [World]: the store of whatever the code runs against (the commerce
    backend on the server, the component and its document on the client)
    together with the trace of every observable interaction: calls to
    collaborators with their arguments and outcomes, callbacks handed back to
    the embedding checkout, log lines. *)

From stdpp Require Import base strings list gmap pretty.
From Stdlib Require Import ZArith Lia Ascii.

Local Open Scope Z_scope.

(** ** JavaScript values the code inspects *)

(** Sub-errors of a commercetools rejection payload ([error.body.errors]). *)
Record SubError := mkSubError {
  sub_message : option string;
  sub_code : option string
}.

Record ErrorBody := mkErrorBody {
  body_message : option string;
  body_errors : option (list SubError)
}.

(** A thrown value, with the fields the catch blocks read. *)
Record exn := mkExn {
  message : option string;
  body : option ErrorBody
}.

(** [new Error(msg)] *)
Definition Error (msg : string) : exn := {| message := Some msg; body := None |}.

(** The engine's error for a property read on [undefined]. *)
Definition TypeError_undefined (prop : string) : exn :=
  Error ("Cannot read properties of undefined (reading '" +:+ prop +:+ "')").

(** The engine's error for calling [undefined]. *)
Definition TypeError_not_a_function (name : string) : exn :=
  Error (name +:+ " is not a function").

Inductive result (A : Type) : Type :=
  | Ok (a : A)
  | Throw (e : exn).
Arguments Ok {A} a.
Arguments Throw {A} e.

(** Truthiness of a possibly-undefined string: [undefined] and [""] are falsy. *)
Definition truthy (s : option string) : bool :=
  match s with
  | Some s => negb (String.eqb s "")
  | None => false
  end.

(** Truthiness of an object that may be [null] or [undefined]. *)
Definition defined {A} (v : option A) : bool :=
  match v with
  | Some _ => true
  | None => false
  end.

(** [a || b] on possibly-undefined strings. *)
Definition js_or (a b : option string) : option string :=
  if truthy a then a else b.

(** [a || "literal"] *)
Definition js_or_lit (a : option string) (b : string) : string :=
  match a with
  | Some s => if String.eqb s "" then b else s
  | None => b
  end.

(** [Array.prototype.join]: undefined elements print as the empty string. *)
Fixpoint js_join (sep : string) (l : list (option string)) : string :=
  match l with
  | [] => ""
  | [x] => default "" x
  | x :: rest => default "" x +:+ sep +:+ js_join sep rest
  end.

(** ** Commerce backend data *)

Record Money := mkMoney {
  currencyCode : string;
  centAmount : Z
}.

Record Cart := mkCart {
  cart_id : string;
  cart_version : Z;
  customerId : option string;
  anonymousId : option string;
  totalPrice : Money;
  cart_payments : list string;
  cart_ordered : bool
}.

(** [PaymentTransactions] (dtos/operations/payment-intents.dto, not part of
    the sources at hand): the two members the service uses. *)
Inductive PaymentTransactions := AUTHORIZATION | CHARGE.

(** Transaction states: [PaymentOutcome.AUTHORIZED] (dtos/stripe-payment.dto)
    or a string literal. *)
Inductive TransactionState :=
  | PaymentOutcome_AUTHORIZED
  | StateLiteral (s : string).

Record TransactionDraft := mkTransaction {
  tx_type : PaymentTransactions;
  tx_amount : Money;
  tx_state : TransactionState;
  interactionId : string
}.

Record PaymentMethodInfo := mkPaymentMethodInfo {
  paymentInterface : string;
  method : string
}.

Record CustomerReference := mkCustomerReference {
  customer_typeId : string;
  customer_id : string
}.

Record PaymentDraft := mkPaymentDraft {
  amountPlanned : Money;
  interfaceId : string;
  paymentMethodInfo : PaymentMethodInfo;
  draft_customer : option CustomerReference;
  draft_anonymousId : option string;
  transactions : list TransactionDraft
}.

Record Payment := mkPayment {
  payment_id : string;
  payment_draft : PaymentDraft
}.

Record CartResource := mkCartResource {
  resource_id : string;
  resource_version : Z
}.

(** Body of [apiClient.orders().post(...)]. *)
Record OrderFromCartDraft := mkOrderFromCartDraft {
  order_cart_id : string;
  order_cart_typeId : string;
  draft_shipmentState : string;
  draft_orderState : string;
  draft_version : Z;
  draft_paymentState : string
}.

Record Order := mkOrder {
  order_id : string;
  orderNumber : option string;
  order_from_cart : string;
  order_from_version : Z
}.

(** [PayPalCaptureResponseSchemaDTO]; every field but [orderId] and [status]
    may be undefined (the route's error reply sends them so). *)
Record PayPalCaptureResponse := mkCaptureResponse {
  orderId : string;
  status : string;
  paymentReference : option string;
  ctOrderId : option string;
  capture_orderNumber : option string;
  merchantReturnUrl : option string
}.

(** ** Client data *)

Inductive PaymentMode := payment | subscription | setup.

(** What the processor hands the enabler for a payment or a subscription. *)
Record PaymentResponse := mkPaymentResponse {
  pr_paymentReference : string;
  pr_clientSecret : option string;
  pr_merchantReturnUrl : option string;
  pr_billingAddress : option string;
  pr_cartId : option string
}.

Record SubscriptionResponse := mkSubscriptionResponse {
  sub_cartId : option string;
  sub_clientSecret : option string;
  sub_billingAddress : option string;
  sub_merchantReturnUrl : option string;
  sub_paymentReference : string;
  subscriptionId : string
}.

Record SetupIntentResponse := mkSetupIntentResponse {
  si_clientSecret : option string;
  si_merchantReturnUrl : option string;
  si_billingAddress : option string
}.

(** A confirmed payment or setup intent: the code reads its [id] only. *)
Record Intent := mkIntent { intent_id : string }.

Record ConfirmPaymentIntentRequest := mkConfirmPaymentIntent {
  cpi_paymentIntentId : string;
  cpi_paymentReference : string
}.

Record ConfirmSubscriptionPaymentRequest := mkConfirmSubscriptionPayment {
  csp_subscriptionId : string;
  csp_paymentReference : string;
  csp_paymentIntentId : option string
}.

(** [PaymentResult], the argument of the completion callback. *)
Record PaymentResult := mkPaymentResult {
  isSuccess : bool;
  result_paymentReference : option string;
  paymentIntent : string;
  result_orderId : option string;
  result_orderNumber : option string
}.

(** A parsed [URL] with the search parameters appended to it, in order. *)
Record Url := mkUrl {
  href : string;
  searchParams : list (string * string)
}.

Record PayPalConfig := mkPayPalConfig {
  clientId : option string;
  currency : string;
  amount : Z;
  environment : string
}.

Record PurchaseUnit := mkPurchaseUnit {
  reference_id : string;
  description : string;
  amount_currency_code : string;
  amount_value : string
}.

Record PayPalOrderRequest := mkPayPalOrderRequest {
  intent : string;
  purchase_units : list PurchaseUnit
}.

Inductive LogLevel := info | error | console_log | console_error.

(** ** Observable interactions *)

Inductive Event :=
  (* commerce backend, called by the processor *)
  | CtGetCart (id : option string) (r : result (option Cart))
  | CtGetPaymentAmount (cart : option Cart) (r : result Money)
  | CtCreatePayment (draft : PaymentDraft) (r : result Payment)
  | CtAddPayment (resource : CartResource) (paymentId : string) (r : result Cart)
  | CtPostOrder (draft : OrderFromCartDraft) (r : result Order)
  | HttpReply (code : Z) (reply : PayPalCaptureResponse)
  (* provider SDKs, called by the enabler *)
  | ElementsSubmit (r : result (option exn))
  | StripeConfirmPayment (arg : PaymentResponse) (r : result Intent)
  | StripeConfirmSetupIntent (arg : SetupIntentResponse) (r : result Intent)
  | PayPalOrderCreate (req : PayPalOrderRequest) (r : result string)
  | PayPalOrderCapture (r : result unit)
  | PayPalGetConfig (r : result (option PayPalConfig))
  | PayPalLoadSDK (r : result unit)
  | PayPalButtonsRender (r : result unit)
  (* processor API, called by the enabler *)
  | ApiGetPayment (r : result PaymentResponse)
  | ApiConfirmPaymentIntent (req : ConfirmPaymentIntentRequest) (r : result unit)
  | ApiCreateSetupIntent (r : result SetupIntentResponse)
  | ApiCreateSubscriptionFromSetupIntent (setupIntentId : string)
      (r : result SubscriptionResponse)
  | ApiCreateSubscription (r : result SubscriptionResponse)
  | ApiConfirmSubscriptionPayment (req : ConfirmSubscriptionPaymentRequest)
      (r : result unit)
  | ApiCapturePayPalOrder (paypalOrderId : string) (r : result PayPalCaptureResponse)
  (* callbacks of the embedding checkout, with how they returned *)
  | OnComplete (res : PaymentResult) (r : result unit)
  | OnError (err : exn) (r : result unit)
  | Navigate (url : Url)
  | Log (level : LogLevel) (msg : string).

(** ** The effect monad *)

Record World (S : Type) := mkWorld {
  store : S;
  trace : list Event
}.
Arguments mkWorld {S} store trace.
Arguments store {S} w.
Arguments trace {S} w.

Definition M (S A : Type) : Type := World S -> result A * World S.

Section Monad.
Context {S : Type}.

Definition ret {A} (a : A) : M S A := fun w => (Ok a, w).

Definition throw {A} (e : exn) : M S A := fun w => (Throw e, w).

Definition bind {A B} (m : M S A) (k : A -> M S B) : M S B :=
  fun w =>
    match m w with
    | (Ok a, w') => k a w'
    | (Throw e, w') => (Throw e, w')
    end.

(** [try { m } catch (error) { h error }] *)
Definition try_catch {A} (m : M S A) (h : exn -> M S A) : M S A :=
  fun w =>
    match m w with
    | (Ok a, w') => (Ok a, w')
    | (Throw e, w') => h e w'
    end.

Definition emit (ev : Event) : M S unit :=
  fun w => (Ok tt, mkWorld (store w) (trace w ++ [ev])).

Definition log (level : LogLevel) (msg : string) : M S unit :=
  emit (Log level msg).

(** A call to a collaborator that may change the store; the call and its
    outcome go to the trace. *)
Definition call {A} (op : S -> result A * S) (ev : result A -> Event) : M S A :=
  fun w =>
    let '(r, s') := op (store w) in
    (r, mkWorld s' (trace w ++ [ev r])).

(** A call whose outcome does not depend on the store. *)
Definition ask {A} (r : result A) (ev : result A -> Event) : M S A :=
  fun w => (r, mkWorld (store w) (trace w ++ [ev r])).

Definition get_store : M S S := fun w => (Ok (store w), w).

Definition modify_store (f : S -> S) : M S unit :=
  fun w => (Ok tt, mkWorld (f (store w)) (trace w)).

(** Reading a property of a value that may be [undefined]. *)
Definition deref {A} (v : option A) (prop : string) : M S A :=
  match v with
  | Some a => ret a
  | None => throw (TypeError_undefined prop)
  end.
End Monad.

Notation "x <- m ;; k" := (bind m (fun x => k))
  (at level 100, m at next level, right associativity).
Notation "m ;;; k" := (bind m (fun _ => k))
  (at level 100, right associativity).

(** ** The commerce backend as the processor sees it

    [ctCartService], [ctPaymentService] and [apiClient.orders()] belong to
    the commercetools SDK; the processor only calls them.  They are an
    interface over an arbitrary backend store. *)
Record Backend (S : Type) := mkBackend {
  ct_getCart : option string -> S -> result (option Cart) * S;
  ct_getPaymentAmount : option Cart -> S -> result Money * S;
  ct_createPayment : PaymentDraft -> S -> result Payment * S;
  ct_addPayment : CartResource -> string -> S -> result Cart * S;
  ct_postOrder : OrderFromCartDraft -> S -> result Order * S
}.
Arguments ct_getCart {S} b id s.
Arguments ct_getPaymentAmount {S} b cart s.
Arguments ct_createPayment {S} b draft s.
Arguments ct_addPayment {S} b resource paymentId s.
Arguments ct_postOrder {S} b draft s.

(** The request context ([libs/fastify/context/context]) and the
    configuration, read by the service. *)
Record RequestContext := mkRequestContext {
  getCartIdFromContext : option string;
  getPaymentInterfaceFromContext : option string;
  getMerchantReturnUrlFromContext : option string
}.

Record Config := mkConfig {
  paypalClientId : option string;
  paypalEnvironment : string;
  config_merchantReturnUrl : option string
}.

Section BackendCalls.
Context {S : Type}.
Variable backend : Backend S.

Definition getCart (id : option string) : M S (option Cart) :=
  call (ct_getCart backend id) (CtGetCart id).

Definition getPaymentAmount (cart : option Cart) : M S Money :=
  call (ct_getPaymentAmount backend cart) (CtGetPaymentAmount cart).

Definition ctPaymentService_createPayment (draft : PaymentDraft) : M S Payment :=
  call (ct_createPayment backend draft) (CtCreatePayment draft).

Definition addPayment (resource : CartResource) (paymentId : string) : M S Cart :=
  call (ct_addPayment backend resource paymentId) (CtAddPayment resource paymentId).

Definition orders_post (draft : OrderFromCartDraft) : M S Order :=
  call (ct_postOrder backend draft) (CtPostOrder draft).
End BackendCalls.

(** ** order-client.ts *)
Module OrderClient.
Section OrderClient.
Context {S : Type}.
Variable backend : Backend S.

(** [error?.body?.message || error?.message || 'Unknown error creating order'] *)
Definition errorMessage (e : exn) : string :=
  js_or_lit (js_or (body e ≫= body_message) (message e))
    "Unknown error creating order".

(** [error?.body?.errors || []] *)
Definition errorDetails (e : exn) : list SubError :=
  default [] (body e ≫= body_errors).

Definition detailedMessage (e : exn) : string :=
  match errorDetails e with
  | [] => errorMessage e
  | details =>
      errorMessage e +:+ ": " +:+
      js_join ", " (map (fun d => js_or (sub_message d) (sub_code d)) details)
  end.

Definition createOrderFromCart (cart : Cart) : M S Order :=
  try_catch
    (latestCart <- getCart backend (Some (cart_id cart)) ;;
     latest <- deref latestCart "version" ;;
     orders_post backend
       {| order_cart_id := cart_id cart;
          order_cart_typeId := "cart";
          draft_shipmentState := "Pending";
          draft_orderState := "Open";
          draft_version := cart_version latest;
          draft_paymentState := "Paid" |})
    (fun error =>
       log console_error "Failed to create order from cart:" ;;;
       throw (Error ("Failed to create order from cart: " +:+ detailedMessage error))).
End OrderClient.
End OrderClient.

(** ** paypal-payment.service.ts *)
Module PayPalPaymentService.
Section Service.
Context {S : Type}.
Variable backend : Backend S.
Variable ctx : RequestContext.
Variable config : Config.

(** The draft passed to [ctPaymentService.createPayment]. *)
Definition paymentDraft (cart : Cart) (amountPlanned : Money)
    (paypalOrderId : string) : PaymentDraft :=
  {| amountPlanned := amountPlanned;
     interfaceId := paypalOrderId;
     paymentMethodInfo :=
       {| paymentInterface := js_or_lit (getPaymentInterfaceFromContext ctx) "paypal";
          method := "paypal" |};
     draft_customer :=
       if truthy (customerId cart)
       then Some {| customer_typeId := "customer";
                    customer_id := default "" (customerId cart) |}
       else None;
     draft_anonymousId :=
       if truthy (customerId cart) then None
       else if truthy (anonymousId cart) then anonymousId cart
       else None;
     transactions :=
       [ {| tx_type := AUTHORIZATION; tx_amount := amountPlanned;
            tx_state := PaymentOutcome_AUTHORIZED; interactionId := paypalOrderId |};
         {| tx_type := CHARGE; tx_amount := amountPlanned;
            tx_state := StateLiteral "Success"; interactionId := paypalOrderId |} ] |}.

Definition captureResponse (paypalOrderId : string) (ctPayment : Payment)
    (order : Order) : PayPalCaptureResponse :=
  {| orderId := paypalOrderId;
     status := "COMPLETED";
     paymentReference := Some (payment_id ctPayment);
     ctOrderId := Some (order_id order);
     capture_orderNumber := orderNumber order;
     merchantReturnUrl :=
       js_or (getMerchantReturnUrlFromContext ctx) (config_merchantReturnUrl config) |}.

Definition capturePayPalOrder (paypalOrderId : string) : M S PayPalCaptureResponse :=
  try_catch
    (cart <- getCart backend (getCartIdFromContext ctx) ;;
     amountPlanned <- getPaymentAmount backend cart ;;
     c <- deref cart "customerId" ;;
     ctPayment <- ctPaymentService_createPayment backend
                    (paymentDraft c amountPlanned paypalOrderId) ;;
     updatedCart <- addPayment backend
                      {| resource_id := cart_id c; resource_version := cart_version c |}
                      (payment_id ctPayment) ;;
     log info "PayPal payment recorded in commercetools" ;;;
     order <- OrderClient.createOrderFromCart backend updatedCart ;;
     log info "Order created successfully for PayPal payment using same pattern as Stripe" ;;;
     ret (captureResponse paypalOrderId ctPayment order))
    (fun err =>
       log error "Error recording PayPal payment in commercetools" ;;;
       throw err).
End Service.
End PayPalPaymentService.

(** ** paypal-payment.service.ts, the variant that validates the context and
    the fetched cart before recording the payment (same class and method,
    with step-by-step logging). *)
Module PayPalPaymentServiceGuarded.
Section Service.
Context {S : Type}.
Variable backend : Backend S.
Variable ctx : RequestContext.
Variable config : Config.

(** The context error: [throw new Error('Cart ID not found in context')] *)
Definition ContextError : exn := Error "Cart ID not found in context".

(** The not-found error: [throw new Error(`Cart not found: ${cartId}`)] *)
Definition NotFoundError (cartId : string) : exn :=
  Error ("Cart not found: " +:+ cartId).

Definition capturePayPalOrder (paypalOrderId : string) : M S PayPalCaptureResponse :=
  try_catch
    (log info "Starting PayPal order capture process" ;;;
     let cartId := getCartIdFromContext ctx in
     if negb (truthy cartId) then
       log error "Cart ID not found in context" ;;;
       throw ContextError
     else
       log info "Retrieved cart ID from context" ;;;
       cart <- getCart backend cartId ;;
       match cart with
       | None =>
           log error "Cart not found in commercetools" ;;;
           throw (NotFoundError (default "" cartId))
       | Some c =>
           log info "Retrieved cart from commercetools" ;;;
           amountPlanned <- getPaymentAmount backend (Some c) ;;
           log info "Calculated payment amount" ;;;
           log info "Creating commercetools payment" ;;;
           ctPayment <- ctPaymentService_createPayment backend
                          (PayPalPaymentService.paymentDraft ctx c amountPlanned
                             paypalOrderId) ;;
           log info "Successfully created commercetools payment" ;;;
           log info "Adding payment to cart" ;;;
           updatedCart <- addPayment backend
                            {| resource_id := cart_id c;
                               resource_version := cart_version c |}
                            (payment_id ctPayment) ;;
           log info "Successfully added payment to cart" ;;;
           log info "PayPal payment recorded in commercetools" ;;;
           log info "Creating order from cart" ;;;
           order <- OrderClient.createOrderFromCart backend updatedCart ;;
           log info "Order created successfully for PayPal payment using same pattern as Stripe" ;;;
           let response :=
             PayPalPaymentService.captureResponse ctx config paypalOrderId ctPayment order in
           log info "PayPal capture process completed successfully" ;;;
           ret response
       end)
    (fun err =>
       log error "Error recording PayPal payment in commercetools" ;;;
       throw err).
End Service.
End PayPalPaymentServiceGuarded.

(** ** paypal-payment.route.ts: POST /paypal/orders/:orderId/capture *)
Module PayPalPaymentRoute.
Section Route.
Context {S : Type}.
Variable paypalService_capturePayPalOrder : string -> M S PayPalCaptureResponse.

Definition errorReply (orderId : string) : PayPalCaptureResponse :=
  {| orderId := orderId; status := "ERROR"; paymentReference := None;
     ctOrderId := None; capture_orderNumber := None; merchantReturnUrl := None |}.

(** The handler; its value is the reply it sent. *)
Definition capture (orderId : string) : M S (Z * PayPalCaptureResponse) :=
  try_catch
    (res <- paypalService_capturePayPalOrder orderId ;;
     emit (HttpReply 200 res) ;;;
     ret (200, res))
    (fun err =>
       log error "PayPal capture error" ;;;
       emit (HttpReply 500 (errorReply orderId)) ;;;
       ret (500, errorReply orderId)).
End Route.
End PayPalPaymentRoute.

(** ** A reference commerce backend

    Modelled from the spec: the commerce backend itself (carts, payments and
    orders behind [ctCartService], [ctPaymentService] and the orders
    endpoint) is an external collaborator with no source here.  The store
    keeps carts by id with their optimistic-concurrency version ("a
    monotonically incrementing counter on the cart/order used to detect and
    reject stale concurrent writes"), and the payment and order records in
    creation order.  Every created record gets a fresh id. *)
Module ReferenceBackend.

Record Store := mkStore {
  carts : gmap string Cart;
  payments : list Payment;
  orders : list Order
}.

Definition notFound (what : string) : exn :=
  {| message := Some (what +:+ " not found");
     body := Some {| body_message := Some (what +:+ " not found");
                     body_errors := Some [ {| sub_message := None;
                                              sub_code := Some "ResourceNotFound" |} ] |} |}.

Definition concurrentModification : exn :=
  {| message := Some "Version mismatch";
     body := Some {| body_message := Some "Version mismatch";
                     body_errors := Some [ {| sub_message := Some "Object has a different version than expected";
                                              sub_code := Some "ConcurrentModification" |} ] |} |}.

Definition alreadyOrdered : exn :=
  {| message := Some "Cart is already ordered";
     body := Some {| body_message := Some "Cart is already ordered";
                     body_errors := Some [] |} |}.

Definition getCart (id : option string) (s : Store) : result (option Cart) * Store :=
  match id ≫= (fun i => carts s !! i) with
  | Some c => (Ok (Some c), s)
  | None => (Throw (notFound "Cart"), s)
  end.

Definition getPaymentAmount (cart : option Cart) (s : Store) : result Money * Store :=
  match cart with
  | Some c => (Ok (totalPrice c), s)
  | None => (Throw (TypeError_undefined "totalPrice"), s)
  end.

Definition freshPaymentId (s : Store) : string :=
  "payment-" +:+ pretty (N.of_nat (length (payments s))).

Definition freshOrderId (s : Store) : string :=
  "order-" +:+ pretty (N.of_nat (length (orders s))).

Definition createPayment (draft : PaymentDraft) (s : Store) : result Payment * Store :=
  let p := {| payment_id := freshPaymentId s; payment_draft := draft |} in
  (Ok p, {| carts := carts s; payments := payments s ++ [p]; orders := orders s |}).

(** The cart after a payment was attached: one version later. *)
Definition attach (paymentId : string) (c : Cart) : Cart :=
  {| cart_id := cart_id c; cart_version := cart_version c + 1;
     customerId := customerId c; anonymousId := anonymousId c;
     totalPrice := totalPrice c;
     cart_payments := cart_payments c ++ [paymentId];
     cart_ordered := cart_ordered c |}.

Definition addPayment (resource : CartResource) (paymentId : string) (s : Store)
    : result Cart * Store :=
  match carts s !! resource_id resource with
  | None => (Throw (notFound "Cart"), s)
  | Some c =>
      if negb (cart_version c =? resource_version resource) then
        (Throw concurrentModification, s)
      else
        (Ok (attach paymentId c),
         {| carts := <[cart_id c := attach paymentId c]> (carts s);
            payments := payments s; orders := orders s |})
  end.

Definition postOrder (draft : OrderFromCartDraft) (s : Store) : result Order * Store :=
  match carts s !! order_cart_id draft with
  | None => (Throw (notFound "Cart"), s)
  | Some c =>
      if negb (cart_version c =? draft_version draft) then
        (Throw concurrentModification, s)
      else if cart_ordered c then
        (Throw alreadyOrdered, s)
      else
        let o := {| order_id := freshOrderId s; orderNumber := None;
                    order_from_cart := cart_id c;
                    order_from_version := draft_version draft |} in
        let c' := {| cart_id := cart_id c; cart_version := cart_version c + 1;
                     customerId := customerId c; anonymousId := anonymousId c;
                     totalPrice := totalPrice c;
                     cart_payments := cart_payments c;
                     cart_ordered := true |} in
        (Ok o, {| carts := <[cart_id c := c']> (carts s);
                  payments := payments s; orders := orders s ++ [o] |})
  end.

Definition backend : Backend Store :=
  {| ct_getCart := getCart;
     ct_getPaymentAmount := getPaymentAmount;
     ct_createPayment := createPayment;
     ct_addPayment := addPayment;
     ct_postOrder := postOrder |}.

End ReferenceBackend.

(** ** payment-flows.ts *)
Module PaymentFlows.

(** The slice of [ApiService] the flows call. *)
Record ApiService (S : Type) := mkApiService {
  getPayment : M S PaymentResponse;
  confirmPaymentIntent : ConfirmPaymentIntentRequest -> M S unit;
  createSetupIntent_api : M S SetupIntentResponse;
  createSubscriptionFromSetupIntent : string -> M S SubscriptionResponse;
  createSubscription_api : M S SubscriptionResponse;
  confirmSubscriptionPayment : ConfirmSubscriptionPaymentRequest -> M S unit;
  capturePayPalOrder : string -> M S PayPalCaptureResponse
}.
Arguments getPayment {S} _.
Arguments confirmPaymentIntent {S} _ _.
Arguments createSetupIntent_api {S} _.
Arguments createSubscriptionFromSetupIntent {S} _ _.
Arguments createSubscription_api {S} _.
Arguments confirmSubscriptionPayment {S} _ _.
Arguments capturePayPalOrder {S} _ _.

Record StripeService (S : Type) := mkStripeService {
  confirmStripePayment : PaymentResponse -> M S Intent;
  confirmStripeSetupIntent : SetupIntentResponse -> M S Intent
}.
Arguments confirmStripePayment {S} _ _.
Arguments confirmStripeSetupIntent {S} _ _.

(** [PaymentFlowsOptions]; [elements] is reduced to its [submit()], which
    yields the [error] field of its result. *)
Record PaymentFlowsOptions (S : Type) := mkOptions {
  api : ApiService S;
  stripe : StripeService S;
  elements_submit : M S (option exn);
  paymentMode : PaymentMode;
  onComplete : option (PaymentResult -> M S unit);
  onError : option (exn -> M S unit)
}.
Arguments api {S} _.
Arguments stripe {S} _.
Arguments elements_submit {S} _.
Arguments paymentMode {S} _.
Arguments onComplete {S} _.
Arguments onError {S} _.

Section Flows.
Context {S : Type}.
Variable this : PaymentFlowsOptions S.
(** Whether [new URL(s)] accepts [s]. *)
Variable valid_url : string -> bool.

(** [f?.(a)] *)
Definition optional_call {A} (f : option (A -> M S unit)) (a : A) : M S unit :=
  match f with
  | Some f => f a
  | None => ret tt
  end.

(** [new URL(s)] *)
Definition URL_new (s : string) : M S Url :=
  if valid_url s then ret {| href := s; searchParams := [] |}
  else throw (Error "Invalid URL").

Definition searchParams_append (u : Url) (k v : string) : Url :=
  {| href := href u; searchParams := searchParams u ++ [(k, v)] |}.

Definition createPayment : M S unit :=
  paymentRes <- getPayment (api this) ;;
  paymentIntent <- confirmStripePayment (stripe this) paymentRes ;;
  confirmPaymentIntent (api this)
    {| cpi_paymentIntentId := intent_id paymentIntent;
       cpi_paymentReference := pr_paymentReference paymentRes |} ;;;
  optional_call (onComplete this)
    {| isSuccess := true;
       result_paymentReference := Some (pr_paymentReference paymentRes);
       paymentIntent := intent_id paymentIntent;
       result_orderId := None;
       result_orderNumber := None |}.

Definition createSetupIntent : M S unit :=
  r <- createSetupIntent_api (api this) ;;
  setupIntent <- confirmStripeSetupIntent (stripe this)
                   {| si_clientSecret := si_clientSecret r;
                      si_merchantReturnUrl := si_merchantReturnUrl r;
                      si_billingAddress := si_billingAddress r |} ;;
  let setupIntentId := intent_id setupIntent in
  subscription <- createSubscriptionFromSetupIntent (api this) setupIntentId ;;
  confirmSubscriptionPayment (api this)
    {| csp_subscriptionId := subscriptionId subscription;
       csp_paymentReference := sub_paymentReference subscription;
       csp_paymentIntentId := None |} ;;;
  optional_call (onComplete this)
    {| isSuccess := true;
       result_paymentReference := Some (sub_paymentReference subscription);
       paymentIntent := setupIntentId;
       result_orderId := None;
       result_orderNumber := None |}.

Definition createSubscription : M S unit :=
  r <- createSubscription_api (api this) ;;
  confirmed <- confirmStripePayment (stripe this)
                 {| pr_paymentReference := sub_paymentReference r;
                    pr_clientSecret := sub_clientSecret r;
                    pr_merchantReturnUrl := sub_merchantReturnUrl r;
                    pr_billingAddress := sub_billingAddress r;
                    pr_cartId := sub_cartId r |} ;;
  let paymentIntentId := intent_id confirmed in
  confirmSubscriptionPayment (api this)
    {| csp_subscriptionId := subscriptionId r;
       csp_paymentReference := sub_paymentReference r;
       csp_paymentIntentId := Some paymentIntentId |} ;;;
  optional_call (onComplete this)
    {| isSuccess := true;
       result_paymentReference := Some (sub_paymentReference r);
       paymentIntent := paymentIntentId;
       result_orderId := None;
       result_orderNumber := None |}.

(** The [default] branch of the switch is unreachable: [paymentMode] has
    the three members of its type. *)
Definition submit : M S unit :=
  try_catch
    (submitError <- elements_submit this ;;
     match submitError with
     | Some e => throw e
     | None =>
         match paymentMode this with
         | payment => createPayment
         | subscription => createSubscription
         | setup => createSetupIntent
         end
     end)
    (fun err => optional_call (onError this) err).

Definition createPayPalPayment (paypalOrderId : string) : M S unit :=
  try_catch
    (res <- capturePayPalOrder (api this) paypalOrderId ;;
     optional_call (onComplete this)
       {| isSuccess := true;
          result_paymentReference := paymentReference res;
          paymentIntent := paypalOrderId;
          result_orderId := ctOrderId res;
          result_orderNumber := capture_orderNumber res |} ;;;
     if truthy (merchantReturnUrl res) then
       returnUrl <- URL_new (default "" (merchantReturnUrl res)) ;;
       let returnUrl := searchParams_append returnUrl "paymentReference"
                          (js_or_lit (paymentReference res) "") in
       let returnUrl := searchParams_append returnUrl "orderId"
                          (js_or_lit (ctOrderId res) "") in
       let returnUrl := searchParams_append returnUrl "orderNumber"
                          (js_or_lit (capture_orderNumber res) "") in
       let returnUrl := searchParams_append returnUrl "paymentMethod" "paypal" in
       let returnUrl := searchParams_append returnUrl "status" "completed" in
       log console_log "PayPal order created successfully, redirecting to confirmation:" ;;;
       emit (Navigate returnUrl)
     else ret tt)
    (fun err =>
       log console_error "Error processing PayPal payment:" ;;;
       optional_call (onError this) err).
End Flows.
End PaymentFlows.

(** ** The surroundings of the enabler

    What the processor API, the provider SDKs, the host page and the
    embedding checkout's callbacks answer.  Every answer is either a value or
    a thrown error; a callback answers by returning or by throwing. *)
Record Surroundings := mkSurroundings {
  on_elements_submit : result (option exn);
  on_getPayment : result PaymentResponse;
  on_confirmStripePayment : PaymentResponse -> result Intent;
  on_confirmPaymentIntent : ConfirmPaymentIntentRequest -> result unit;
  on_createSetupIntent : result SetupIntentResponse;
  on_confirmStripeSetupIntent : SetupIntentResponse -> result Intent;
  on_createSubscriptionFromSetupIntent : string -> result SubscriptionResponse;
  on_createSubscription : result SubscriptionResponse;
  on_confirmSubscriptionPayment : ConfirmSubscriptionPaymentRequest -> result unit;
  on_capturePayPalOrder : string -> result PayPalCaptureResponse;
  completion_callback : option (PaymentResult -> result unit);
  error_callback : option (exn -> result unit);
  url_is_valid : string -> bool;
  (* PayPal: config endpoint, SDK loader, button SDK *)
  on_getConfig : result (option PayPalConfig);
  on_loadPayPalSDK : result unit;
  window_paypal : bool;
  on_Buttons_render : result unit;
  on_order_create : PayPalOrderRequest -> result string;
  on_order_capture : result unit;
  (* host page: which selectors [document.querySelector] resolves *)
  page_matches : string -> bool
}.

Section Wiring.
Context {S : Type}.
Variable env : Surroundings.

Definition apiService : PaymentFlows.ApiService S :=
  {| PaymentFlows.getPayment := ask (on_getPayment env) ApiGetPayment;
     PaymentFlows.confirmPaymentIntent := fun req =>
       ask (on_confirmPaymentIntent env req) (ApiConfirmPaymentIntent req);
     PaymentFlows.createSetupIntent_api :=
       ask (on_createSetupIntent env) ApiCreateSetupIntent;
     PaymentFlows.createSubscriptionFromSetupIntent := fun id =>
       ask (on_createSubscriptionFromSetupIntent env id)
         (ApiCreateSubscriptionFromSetupIntent id);
     PaymentFlows.createSubscription_api :=
       ask (on_createSubscription env) ApiCreateSubscription;
     PaymentFlows.confirmSubscriptionPayment := fun req =>
       ask (on_confirmSubscriptionPayment env req) (ApiConfirmSubscriptionPayment req);
     PaymentFlows.capturePayPalOrder := fun id =>
       ask (on_capturePayPalOrder env id) (ApiCapturePayPalOrder id) |}.

Definition stripeService : PaymentFlows.StripeService S :=
  {| PaymentFlows.confirmStripePayment := fun arg =>
       ask (on_confirmStripePayment env arg) (StripeConfirmPayment arg);
     PaymentFlows.confirmStripeSetupIntent := fun arg =>
       ask (on_confirmStripeSetupIntent env arg) (StripeConfirmSetupIntent arg) |}.

Definition baseOptions_onComplete : option (PaymentResult -> M S unit) :=
  (fun f res => ask (f res) (OnComplete res)) <$> completion_callback env.

Definition baseOptions_onError : option (exn -> M S unit) :=
  (fun f err => ask (f err) (OnError err)) <$> error_callback env.

(** The options [PaymentElementComponent]'s constructor passes to
    [new PaymentFlows(...)]. *)
Definition flowsOptions (mode : PaymentMode) : PaymentFlows.PaymentFlowsOptions S :=
  {| PaymentFlows.api := apiService;
     PaymentFlows.stripe := stripeService;
     PaymentFlows.elements_submit := ask (on_elements_submit env) ElementsSubmit;
     PaymentFlows.paymentMode := mode;
     PaymentFlows.onComplete := baseOptions_onComplete;
     PaymentFlows.onError := baseOptions_onError |}.
End Wiring.

(** ** payment-element.ts *)
Module PaymentElementComponent.

(** An element of the document, with the properties the component writes. *)
Record Element := mkElement {
  classList : list string;
  display : string;
  opacity : string;
  pointerEvents : string
}.

(** The component's fields, the elements [document.getElementById] finds,
    the listeners [mount] registered and the configuration captured by the
    callbacks handed to [paypal.Buttons]. *)
Record Component := mkComponent {
  isPayPalSelected : bool;
  paypalMounted : bool;
  paypalConfig : option PayPalConfig;
  document : gmap string Element;
  paypalOptionListener : bool;
  stripeListeners : bool;
  paypalButtons : option PayPalConfig
}.

Inductive ActiveMethod := primary_widget | alternative_wallet.

Definition activeMethod (c : Component) : ActiveMethod :=
  if isPayPalSelected c then alternative_wallet else primary_widget.

(** A component as constructed, on a host page with elements [page]. *)
Definition new_component (page : gmap string Element) : Component :=
  {| isPayPalSelected := false; paypalMounted := false; paypalConfig := None;
     document := page; paypalOptionListener := false; stripeListeners := false;
     paypalButtons := None |}.

Definition set_isPayPalSelected (b : bool) (c : Component) : Component :=
  {| isPayPalSelected := b; paypalMounted := paypalMounted c;
     paypalConfig := paypalConfig c; document := document c;
     paypalOptionListener := paypalOptionListener c;
     stripeListeners := stripeListeners c; paypalButtons := paypalButtons c |}.

Definition set_paypalMounted (b : bool) (c : Component) : Component :=
  {| isPayPalSelected := isPayPalSelected c; paypalMounted := b;
     paypalConfig := paypalConfig c; document := document c;
     paypalOptionListener := paypalOptionListener c;
     stripeListeners := stripeListeners c; paypalButtons := paypalButtons c |}.

Definition set_paypalConfig (cfg : option PayPalConfig) (c : Component) : Component :=
  {| isPayPalSelected := isPayPalSelected c; paypalMounted := paypalMounted c;
     paypalConfig := cfg; document := document c;
     paypalOptionListener := paypalOptionListener c;
     stripeListeners := stripeListeners c; paypalButtons := paypalButtons c |}.

Definition set_document (d : gmap string Element) (c : Component) : Component :=
  {| isPayPalSelected := isPayPalSelected c; paypalMounted := paypalMounted c;
     paypalConfig := paypalConfig c; document := d;
     paypalOptionListener := paypalOptionListener c;
     stripeListeners := stripeListeners c; paypalButtons := paypalButtons c |}.

Definition set_paypalOptionListener (b : bool) (c : Component) : Component :=
  {| isPayPalSelected := isPayPalSelected c; paypalMounted := paypalMounted c;
     paypalConfig := paypalConfig c; document := document c;
     paypalOptionListener := b;
     stripeListeners := stripeListeners c; paypalButtons := paypalButtons c |}.

Definition set_stripeListeners (b : bool) (c : Component) : Component :=
  {| isPayPalSelected := isPayPalSelected c; paypalMounted := paypalMounted c;
     paypalConfig := paypalConfig c; document := document c;
     paypalOptionListener := paypalOptionListener c;
     stripeListeners := b; paypalButtons := paypalButtons c |}.

Definition set_paypalButtons (cfg : option PayPalConfig) (c : Component) : Component :=
  {| isPayPalSelected := isPayPalSelected c; paypalMounted := paypalMounted c;
     paypalConfig := paypalConfig c; document := document c;
     paypalOptionListener := paypalOptionListener c;
     stripeListeners := stripeListeners c; paypalButtons := cfg |}.

(** *** Document updates *)

Definition stripe_container_id : string := "stripe-payment-element-container".
Definition paypal_option_id : string := "paypal-payment-option".
Definition paypal_wrapper_id : string := "paypal-button-wrapper".
Definition paypal_container_id : string := "paypal-button-container".
Definition custom_styles_id : string := "payment-element-custom-styles".

Definition blank : Element :=
  {| classList := []; display := ""; opacity := ""; pointerEvents := "" |}.

Definition classList_add (cls : string) (e : Element) : Element :=
  {| classList := if bool_decide (cls ∈ classList e) then classList e
                  else classList e ++ [cls];
     display := display e; opacity := opacity e; pointerEvents := pointerEvents e |}.

Definition classList_remove (cls : string) (e : Element) : Element :=
  {| classList := filter (fun x => x ≠ cls) (classList e);
     display := display e; opacity := opacity e; pointerEvents := pointerEvents e |}.

Definition style_display (v : string) (e : Element) : Element :=
  {| classList := classList e; display := v;
     opacity := opacity e; pointerEvents := pointerEvents e |}.

Definition style_opacity (v : string) (e : Element) : Element :=
  {| classList := classList e; display := display e;
     opacity := v; pointerEvents := pointerEvents e |}.

Definition style_pointerEvents (v : string) (e : Element) : Element :=
  {| classList := classList e; display := display e;
     opacity := opacity e; pointerEvents := v |}.

(** [const el = document.getElementById(id); if (el) { f(el) }] *)
Definition with_element (id : string) (f : Element -> Element) (c : Component)
    : Component :=
  set_document (alter f id (document c)) c.

Definition appendElement (id : string) (e : Element) (c : Component) : Component :=
  set_document (<[id := e]> (document c)) c.

Definition selectPayPal (c : Component) : Component :=
  let c := set_isPayPalSelected true c in
  let c := with_element paypal_option_id (classList_add "selected") c in
  let c := with_element paypal_wrapper_id (style_display "block") c in
  with_element stripe_container_id
    (fun e => style_pointerEvents "none" (style_opacity "0.5" e)) c.

Definition deselectPayPal (c : Component) : Component :=
  let c := set_isPayPalSelected false c in
  let c := with_element paypal_option_id (classList_remove "selected") c in
  let c := with_element paypal_wrapper_id (style_display "none") c in
  with_element stripe_container_id
    (fun e => style_pointerEvents "auto" (style_opacity "1" e)) c.

Definition addCustomStyles (c : Component) : Component :=
  match document c !! custom_styles_id with
  | Some _ => c
  | None => appendElement custom_styles_id blank c
  end.

(** *** Amounts shown to PayPal *)

Definition two_digits (n : Z) : string :=
  if n <? 10 then "0" +:+ pretty n else pretty n.

(** [(amount / 100).toFixed(2)] for an integral cent amount: the sign, the
    whole units and the two-digit remainder. *)
Definition toFixed2 (amount : Z) : string :=
  (if amount <? 0 then "-" else "") +:+
  pretty (Z.abs amount / 100) +:+ "." +:+ two_digits (Z.abs amount mod 100).

Fixpoint all_zero_digits (s : string) : bool :=
  match s with
  | EmptyString => true
  | String c rest =>
      (Ascii.eqb c "0"%char || Ascii.eqb c "."%char) && all_zero_digits rest
  end.

(** [parseFloat(s) <= 0] for a decimal numeral [s]: it carries a minus
    sign, or all its digits are zero. *)
Definition parseFloat_le_zero (s : string) : bool :=
  match s with
  | String "-"%char _ => true
  | _ => all_zero_digits s
  end.

(** The events the browser and the PayPal button deliver. *)
Inductive UiEvent :=
  | PayPalOptionClick
  | StripeElementChange
  | StripeContainerClick
  | PayPalCreateOrder
  | PayPalApprove (orderID : string)
  | PayPalError (err : exn)
  | PayPalCancel
  | Submit.

Section Component.
Variable env : Surroundings.
Variable mode : PaymentMode.

Abbreviation paymentFlows := (flowsOptions (S := Component) env mode).

(** [onError(error)]: [baseOptions.onError] called without a guard. *)
Definition onError (err : exn) : M Component unit :=
  match baseOptions_onError env with
  | Some f => f err
  | None => throw (TypeError_not_a_function "onError")
  end.

(** *** The callbacks handed to [window.paypal.Buttons] *)

Definition orderRequest (config : PayPalConfig) (totalValue : string)
    : PayPalOrderRequest :=
  {| intent := "CAPTURE";
     purchase_units :=
       [ {| reference_id := "ORDER"; description := "Order Payment";
            amount_currency_code := currency config;
            amount_value := totalValue |} ] |}.

Definition createOrder (config : PayPalConfig) : M Component string :=
  try_catch
    (let totalValue := toFixed2 (amount config) in
     if parseFloat_le_zero totalValue then
       log console_error "Cart total is zero or negative, cannot create PayPal order" ;;;
       throw (Error "Cart total must be greater than zero")
     else
       ask (on_order_create env (orderRequest config totalValue))
         (PayPalOrderCreate (orderRequest config totalValue)))
    (fun err =>
       log console_error "Error creating PayPal order:" ;;;
       onError err ;;;
       throw err).

Definition onApprove (orderID : string) : M Component unit :=
  try_catch
    (ask (on_order_capture env) PayPalOrderCapture ;;;
     log console_log "PayPal order captured:" ;;;
     PaymentFlows.createPayPalPayment paymentFlows (url_is_valid env) orderID)
    (fun err =>
       log console_error "Error capturing PayPal order:" ;;;
       onError err).

(** The button's [onError] option. *)
Definition onPayPalError (err : exn) : M Component unit :=
  log console_error "PayPal error:" ;;;
  onError err.

Definition onCancel : M Component unit :=
  log console_log "PayPal payment cancelled by user".

(** *** Rendering *)

Definition renderPayPalButton : M Component unit :=
  c <- get_store ;;
  match window_paypal env, paypalConfig c with
  | true, Some config =>
      ask (on_Buttons_render env) PayPalButtonsRender ;;;
      modify_store (set_paypalButtons (Some config))
  | _, _ => ret tt
  end.

Definition initializePayPal : M Component unit :=
  c <- get_store ;;
  match paypalMounted c, paypalConfig c with
  | false, Some config =>
      try_catch
        (ask (on_loadPayPalSDK env) PayPalLoadSDK ;;;
         if negb (window_paypal env) then
           log console_error "PayPal SDK not loaded"
         else
           renderPayPalButton ;;;
           modify_store (set_paypalMounted true))
        (fun _ => log console_error "Failed to initialize PayPal:")
  | _, _ => ret tt
  end.

(** The elements [mount] creates for the PayPal option. *)
Definition paypalOption : Element :=
  {| classList := ["paypal-payment-option"]; display := "flex";
     opacity := ""; pointerEvents := "" |}.

Definition paypalButtonWrapper : Element :=
  {| classList := []; display := "none"; opacity := ""; pointerEvents := "" |}.

Definition mount (selector : string) : M Component unit :=
  if negb (page_matches env selector) then
    log console_error "Container not found:"
  else
    paypalAvailable <-
      try_catch
        (cfg <- ask (on_getConfig env) PayPalGetConfig ;;
         modify_store (set_paypalConfig cfg) ;;;
         ret (truthy (cfg ≫= clientId)))
        (fun _ =>
           log console_log "PayPal not configured, showing only Stripe payment methods" ;;;
           ret false) ;;
    modify_store (appendElement stripe_container_id blank) ;;;
    (if paypalAvailable : bool then
       modify_store (appendElement paypal_option_id paypalOption) ;;;
       modify_store (appendElement paypal_container_id blank) ;;;
       modify_store (appendElement paypal_wrapper_id paypalButtonWrapper) ;;;
       modify_store (set_paypalOptionListener true)
     else ret tt) ;;;
    modify_store (set_stripeListeners true) ;;;
    c <- get_store ;;
    (if (paypalAvailable && defined (paypalConfig c))%bool
     then initializePayPal else ret tt) ;;;
    modify_store addCustomStyles.

Definition submit : M Component unit :=
  c <- get_store ;;
  if isPayPalSelected c then
    log console_log "PayPal payment - use the PayPal button to complete payment"
  else
    PaymentFlows.submit paymentFlows.

(** *** Event delivery *)

(** Whether a listener for the event is registered. *)
Definition listening (c : Component) (ev : UiEvent) : bool :=
  match ev with
  | PayPalOptionClick => paypalOptionListener c
  | StripeElementChange | StripeContainerClick => stripeListeners c
  | PayPalCreateOrder | PayPalApprove _ | PayPalError _ | PayPalCancel =>
      defined (paypalButtons c)
  | Submit => true
  end.

Definition deselect_if_selected : M Component unit :=
  c <- get_store ;;
  if isPayPalSelected c then modify_store deselectPayPal else ret tt.

Definition dispatch (ev : UiEvent) : M Component unit :=
  match ev with
  | PayPalOptionClick => modify_store selectPayPal
  | StripeElementChange => deselect_if_selected
  | StripeContainerClick => deselect_if_selected
  | PayPalCreateOrder =>
      c <- get_store ;;
      match paypalButtons c with
      | Some config => createOrder config ;;; ret tt
      | None => ret tt
      end
  | PayPalApprove orderID => onApprove orderID
  | PayPalError err => onPayPalError err
  | PayPalCancel => onCancel
  | Submit => submit
  end.

(** The worlds a component goes through: constructed on some host page,
    mounted once, then driven by the events it listens to. *)
Inductive reachable : World Component -> Prop :=
  | reach_mount page selector r w :
      mount selector (mkWorld (new_component page) []) = (r, w) ->
      reachable w
  | reach_dispatch ev w r w' :
      reachable w ->
      listening (store w) ev = true ->
      dispatch ev w = (r, w') ->
      reachable w'.
End Component.
End PaymentElementComponent.

(** ** The settlement end to end

    The enabler's [api.capturePayPalOrder] served by the processor: the
    request reaches the route, which runs the service and replies.  The
    enabler's api-service is not among the sources at hand; it yields the
    body of a 200 reply, and what it does with any other reply is left open
    ([api_on_failure]). *)
Module Settlement.
Section Settlement.
Context {S : Type}.
Variable backend : Backend S.
Variable ctx : RequestContext.
Variable config : Config.
Variable env : Surroundings.
Variable mode : PaymentMode.
Variable api_on_failure : Z -> PayPalCaptureResponse -> M S PayPalCaptureResponse.

Definition served_capturePayPalOrder (paypalOrderId : string)
    : M S PayPalCaptureResponse :=
  reply <- PayPalPaymentRoute.capture
             (PayPalPaymentService.capturePayPalOrder backend ctx config)
             paypalOrderId ;;
  if reply.1 =? 200 then ret reply.2 else api_on_failure reply.1 reply.2.

Definition api : PaymentFlows.ApiService S :=
  let a := apiService env in
  {| PaymentFlows.getPayment := PaymentFlows.getPayment a;
     PaymentFlows.confirmPaymentIntent := PaymentFlows.confirmPaymentIntent a;
     PaymentFlows.createSetupIntent_api := PaymentFlows.createSetupIntent_api a;
     PaymentFlows.createSubscriptionFromSetupIntent :=
       PaymentFlows.createSubscriptionFromSetupIntent a;
     PaymentFlows.createSubscription_api := PaymentFlows.createSubscription_api a;
     PaymentFlows.confirmSubscriptionPayment := PaymentFlows.confirmSubscriptionPayment a;
     PaymentFlows.capturePayPalOrder := served_capturePayPalOrder |}.

Definition paymentFlows : PaymentFlows.PaymentFlowsOptions S :=
  {| PaymentFlows.api := api;
     PaymentFlows.stripe := stripeService env;
     PaymentFlows.elements_submit := ask (on_elements_submit env) ElementsSubmit;
     PaymentFlows.paymentMode := mode;
     PaymentFlows.onComplete := baseOptions_onComplete env;
     PaymentFlows.onError := baseOptions_onError env |}.

Definition settle (paypalOrderId : string) : M S unit :=
  PaymentFlows.createPayPalPayment paymentFlows (url_is_valid env) paypalOrderId.
End Settlement.
End Settlement.

(** ** Reading traces *)

(** The body [createOrderFromCart cart] posts once it re-fetched [latest]. *)
Definition orderDraft (cart latest : Cart) : OrderFromCartDraft :=
  {| order_cart_id := cart_id cart; order_cart_typeId := "cart";
     draft_shipmentState := "Pending"; draft_orderState := "Open";
     draft_version := cart_version latest; draft_paymentState := "Paid" |}.

(** The error [createOrderFromCart] raises for a caught [e]. *)
Definition orderFailure (e : exn) : exn :=
  Error ("Failed to create order from cart: " +:+ OrderClient.detailedMessage e).

(** The events a computation adds to the trace of the world it starts in. *)
Definition events_of {S A} (m : M S A) (w : World S) : list Event :=
  drop (length (trace w)) (trace (m w).2).

(** The three milestones of a settlement. *)
Definition milestone (e : Event) : bool :=
  match e with
  | CtCreatePayment _ _ | CtPostOrder _ _ | OnComplete _ _ => true
  | _ => false
  end.

Definition is_createPayment (e : Event) : bool :=
  match e with CtCreatePayment _ _ => true | _ => false end.

Definition is_completion (e : Event) : bool :=
  match e with OnComplete _ _ => true | _ => false end.

Definition is_error_callback (e : Event) : bool :=
  match e with OnError _ _ => true | _ => false end.

Definition is_callback (e : Event) : bool :=
  is_completion e || is_error_callback e.

(** A call to the commerce backend (processor side) or to the processor API
    (enabler side). *)
Definition is_backend_call (e : Event) : bool :=
  match e with
  | CtGetCart _ _ | CtGetPaymentAmount _ _ | CtCreatePayment _ _
  | CtAddPayment _ _ _ | CtPostOrder _ _
  | ApiGetPayment _ | ApiConfirmPaymentIntent _ _ | ApiCreateSetupIntent _
  | ApiCreateSubscriptionFromSetupIntent _ _ | ApiCreateSubscription _
  | ApiConfirmSubscriptionPayment _ _ | ApiCapturePayPalOrder _ _ => true
  | _ => false
  end.

Definition count (f : Event -> bool) (evs : list Event) : nat :=
  length (List.filter f evs).

(** The operations of the processor API. *)
Inductive ApiCall :=
  | GetPayment | ConfirmPaymentIntent | CreateSetupIntent
  | CreateSubscriptionFromSetupIntent | CreateSubscription
  | ConfirmSubscriptionPayment | CapturePayPalOrder.

Definition api_call (e : Event) : option ApiCall :=
  match e with
  | ApiGetPayment _ => Some GetPayment
  | ApiConfirmPaymentIntent _ _ => Some ConfirmPaymentIntent
  | ApiCreateSetupIntent _ => Some CreateSetupIntent
  | ApiCreateSubscriptionFromSetupIntent _ _ => Some CreateSubscriptionFromSetupIntent
  | ApiCreateSubscription _ => Some CreateSubscription
  | ApiConfirmSubscriptionPayment _ _ => Some ConfirmSubscriptionPayment
  | ApiCapturePayPalOrder _ _ => Some CapturePayPalOrder
  | _ => None
  end.

(** The backend sequence of each payment mode, as the flow orchestrator's
    contract words it: payment requests a reference and marks the intent
    confirmed; setup requests a setup intent, materialises a subscription
    from it and confirms its payment; subscription requests the
    subscription and confirms its payment. *)
Definition backend_sequence (mode : PaymentMode) : list ApiCall :=
  match mode with
  | payment => [GetPayment; ConfirmPaymentIntent]
  | setup => [CreateSetupIntent; CreateSubscriptionFromSetupIntent;
              ConfirmSubscriptionPayment]
  | subscription => [CreateSubscription; ConfirmSubscriptionPayment]
  end.

(** The function of a collaborator an event is a call of. *)
Definition callee (e : Event) : option string :=
  match e with
  | CtGetCart _ _ => Some "getCart"
  | CtGetPaymentAmount _ _ => Some "getPaymentAmount"
  | CtCreatePayment _ _ => Some "createPayment"
  | CtAddPayment _ _ _ => Some "addPayment"
  | CtPostOrder _ _ => Some "orders.post"
  | ElementsSubmit _ => Some "elements.submit"
  | StripeConfirmPayment _ _ => Some "confirmStripePayment"
  | StripeConfirmSetupIntent _ _ => Some "confirmStripeSetupIntent"
  | PayPalOrderCreate _ _ => Some "order.create"
  | PayPalOrderCapture _ => Some "order.capture"
  | PayPalGetConfig _ => Some "getConfig"
  | PayPalLoadSDK _ => Some "loadPayPalSDK"
  | PayPalButtonsRender _ => Some "Buttons.render"
  | ApiGetPayment _ => Some "getPayment"
  | ApiConfirmPaymentIntent _ _ => Some "confirmPaymentIntent"
  | ApiCreateSetupIntent _ => Some "createSetupIntent"
  | ApiCreateSubscriptionFromSetupIntent _ _ => Some "createSubscriptionFromSetupIntent"
  | ApiCreateSubscription _ => Some "createSubscription"
  | ApiConfirmSubscriptionPayment _ _ => Some "confirmSubscriptionPayment"
  | ApiCapturePayPalOrder _ _ => Some "capturePayPalOrder"
  | HttpReply _ _ | OnComplete _ _ | OnError _ _ | Navigate _ | Log _ _ => None
  end.

Definition thrown {A} (r : result A) : option exn :=
  match r with
  | Throw e => Some e
  | Ok _ => None
  end.

(** The error a step of the submit sequence raised, if it raised one: a
    rejected call, a validation error reported by [elements.submit()], or a
    completion callback that threw. *)
Definition raised (e : Event) : option exn :=
  match e with
  | ElementsSubmit (Ok (Some err)) => Some err
  | ElementsSubmit r => thrown r
  | StripeConfirmPayment _ r => thrown r
  | StripeConfirmSetupIntent _ r => thrown r
  | ApiGetPayment r => thrown r
  | ApiConfirmPaymentIntent _ r => thrown r
  | ApiCreateSetupIntent r => thrown r
  | ApiCreateSubscriptionFromSetupIntent _ r => thrown r
  | ApiCreateSubscription r => thrown r
  | ApiConfirmSubscriptionPayment _ r => thrown r
  | OnComplete _ r => thrown r
  | _ => None
  end.

(** The claim "exactly one of the completion and error callbacks". *)
Definition exactly_one_callback (evs : list Event) : Prop :=
  count is_callback evs = 1%nat.

Definition is_order_create (e : Event) : bool :=
  match e with PayPalOrderCreate _ _ => true | _ => false end.

(** A computation that leaves the store as it found it. *)
Definition keeps_store {S A} (m : M S A) : Prop :=
  forall w, store (m w).2 = store w.

Module PE := PaymentElementComponent.

(** What holds of a component from [mount] on: the elements a registered
    listener or a selection relies on are in the document, the wallet can
    only be selected through its option's listener, and the rendered
    button's callbacks captured the configuration that was fetched. *)
Definition mounted_invariant (env : Surroundings) (c : PE.Component) : Prop :=
  (PE.stripeListeners c = true ->
     is_Some (PE.document c !! PE.stripe_container_id)) /\
  (PE.paypalOptionListener c = true ->
     PE.stripeListeners c = true /\
     is_Some (PE.document c !! PE.paypal_option_id) /\
     is_Some (PE.document c !! PE.paypal_wrapper_id)) /\
  (PE.isPayPalSelected c = true -> PE.paypalOptionListener c = true) /\
  (forall cfg, PE.paypalButtons c = Some cfg -> on_getConfig env = Ok (Some cfg)).

(** ** Sample inputs *)

Definition sample_cart : Cart :=
  {| cart_id := "cart-1"; cart_version := 7; customerId := None;
     anonymousId := Some "anonymous-1";
     totalPrice := {| currencyCode := "USD"; centAmount := 1999 |};
     cart_payments := []; cart_ordered := false |}.

Definition sample_store : ReferenceBackend.Store :=
  {| ReferenceBackend.carts := {[ "cart-1" := sample_cart ]};
     ReferenceBackend.payments := [];
     ReferenceBackend.orders := [] |}.

Definition sample_context : RequestContext :=
  {| getCartIdFromContext := Some "cart-1";
     getPaymentInterfaceFromContext := None;
     getMerchantReturnUrlFromContext := None |}.

(** A request whose session resolves no cart. *)
Definition context_without_cart : RequestContext :=
  {| getCartIdFromContext := None;
     getPaymentInterfaceFromContext := None;
     getMerchantReturnUrlFromContext := None |}.

Definition sample_config : Config :=
  {| paypalClientId := Some "paypal-client"; paypalEnvironment := "sandbox";
     config_merchantReturnUrl := Some "https://shop.example/thanks" |}.

(** A backend whose cart service answers with no cart and no error. *)
Definition backend_without_carts : Backend unit :=
  {| ct_getCart := fun _ s => (Ok None, s);
     ct_getPaymentAmount := fun _ s => (Throw (TypeError_undefined "totalPrice"), s);
     ct_createPayment := fun draft s =>
       (Ok {| payment_id := "payment-0"; payment_draft := draft |}, s);
     ct_addPayment := fun _ _ s => (Throw (ReferenceBackend.notFound "Cart"), s);
     ct_postOrder := fun _ s => (Throw (ReferenceBackend.notFound "Cart"), s) |}.

Definition sample_payment : PaymentResponse :=
  {| pr_paymentReference := "pr_1"; pr_clientSecret := Some "cs_1";
     pr_merchantReturnUrl := None; pr_billingAddress := None; pr_cartId := None |}.

Definition sample_subscription : SubscriptionResponse :=
  {| sub_cartId := Some "cart-1"; sub_clientSecret := Some "cs_2";
     sub_billingAddress := None; sub_merchantReturnUrl := None;
     sub_paymentReference := "pr_2"; subscriptionId := "sub_1" |}.

Definition sample_capture : PayPalCaptureResponse :=
  {| orderId := "EC-1"; status := "COMPLETED"; paymentReference := Some "payment-0";
     ctOrderId := Some "order-0"; capture_orderNumber := None;
     merchantReturnUrl := Some "https://shop.example/thanks" |}.

(** A checkout where every collaborator succeeds; what varies between the
    examples is what [elements.submit()] reports, how the completion
    callback returns, and the cart total the PayPal config carries. *)
Definition checkout (submitted : result (option exn))
    (completion : PaymentResult -> result unit) (total : Z) : Surroundings :=
  {| on_elements_submit := submitted;
     on_getPayment := Ok sample_payment;
     on_confirmStripePayment := fun _ => Ok {| intent_id := "pi_1" |};
     on_confirmPaymentIntent := fun _ => Ok tt;
     on_createSetupIntent :=
       Ok {| si_clientSecret := Some "seti_secret"; si_merchantReturnUrl := None;
             si_billingAddress := None |};
     on_confirmStripeSetupIntent := fun _ => Ok {| intent_id := "seti_1" |};
     on_createSubscriptionFromSetupIntent := fun _ => Ok sample_subscription;
     on_createSubscription := Ok sample_subscription;
     on_confirmSubscriptionPayment := fun _ => Ok tt;
     on_capturePayPalOrder := fun _ => Ok sample_capture;
     completion_callback := Some completion;
     error_callback := Some (fun _ => Ok tt);
     url_is_valid := fun s => String.prefix "https://" s;
     on_getConfig :=
       Ok (Some {| clientId := Some "paypal-client"; currency := "USD";
                   amount := total; environment := "sandbox" |});
     on_loadPayPalSDK := Ok tt;
     window_paypal := true;
     on_Buttons_render := Ok tt;
     on_order_create := fun _ => Ok "EC-1";
     on_order_capture := Ok tt;
     page_matches := fun selector => String.eqb selector "#payment" |}.

(** The same surroundings with another answer of the capture endpoint. *)
Definition with_capture (answer : string -> result PayPalCaptureResponse)
    (env : Surroundings) : Surroundings :=
  {| on_elements_submit := on_elements_submit env;
     on_getPayment := on_getPayment env;
     on_confirmStripePayment := on_confirmStripePayment env;
     on_confirmPaymentIntent := on_confirmPaymentIntent env;
     on_createSetupIntent := on_createSetupIntent env;
     on_confirmStripeSetupIntent := on_confirmStripeSetupIntent env;
     on_createSubscriptionFromSetupIntent := on_createSubscriptionFromSetupIntent env;
     on_createSubscription := on_createSubscription env;
     on_confirmSubscriptionPayment := on_confirmSubscriptionPayment env;
     on_capturePayPalOrder := answer;
     completion_callback := completion_callback env;
     error_callback := error_callback env;
     url_is_valid := url_is_valid env;
     on_getConfig := on_getConfig env;
     on_loadPayPalSDK := on_loadPayPalSDK env;
     window_paypal := window_paypal env;
     on_Buttons_render := on_Buttons_render env;
     on_order_create := on_order_create env;
     on_order_capture := on_order_capture env;
     page_matches := page_matches env |}.

Definition returns_normally : PaymentResult -> result unit := fun _ => Ok tt.

Definition throws : PaymentResult -> result unit :=
  fun _ => Throw (Error "checkout page failed to render the confirmation").

Definition card_declined : exn := Error "Your card number is incomplete.".


(** The component mounted into [#payment] of an empty page, and then with
    the PayPal option clicked. *)
Definition mounted (env : Surroundings) : World PE.Component :=
  (PE.mount env "#payment" (mkWorld (PE.new_component ∅) [])).2.

Definition wallet_selected (env : Surroundings) (mode : PaymentMode)
    : World PE.Component :=
  (PE.dispatch env mode PE.PayPalOptionClick (mounted env)).2.

(** ** paypal-payment.service.ts: the configuration the enabler fetches *)
Module PayPalPaymentServiceConfig.
Section Service.
Context {S : Type}.
Variable backend : Backend S.
Variable ctx : RequestContext.
Variable getConfig : Config.

(** [config()]: no try around it, so a rejection leaves it as it came. *)
Definition config : M S PayPalConfig :=
  cart <- getCart backend (getCartIdFromContext ctx) ;;
  amountPlanned <- getPaymentAmount backend cart ;;
  ret {| clientId := paypalClientId getConfig;
         environment := paypalEnvironment getConfig;
         currency := currencyCode amountPlanned;
         amount := centAmount amountPlanned |}.
End Service.
End PayPalPaymentServiceConfig.

(** ** paypal-payment.service.ts, the first version: it answers without a
    return URL and logs less. *)
Module PayPalPaymentServiceInitial.
Section Service.
Context {S : Type}.
Variable backend : Backend S.
Variable ctx : RequestContext.

Definition captureResponse (paypalOrderId : string) (ctPayment : Payment)
    (order : Order) : PayPalCaptureResponse :=
  {| orderId := paypalOrderId;
     status := "COMPLETED";
     paymentReference := Some (payment_id ctPayment);
     ctOrderId := Some (order_id order);
     capture_orderNumber := orderNumber order;
     merchantReturnUrl := None |}.

Definition capturePayPalOrder (paypalOrderId : string) : M S PayPalCaptureResponse :=
  try_catch
    (cart <- getCart backend (getCartIdFromContext ctx) ;;
     amountPlanned <- getPaymentAmount backend cart ;;
     c <- deref cart "customerId" ;;
     ctPayment <- ctPaymentService_createPayment backend
                    (PayPalPaymentService.paymentDraft ctx c amountPlanned paypalOrderId) ;;
     updatedCart <- addPayment backend
                      {| resource_id := cart_id c; resource_version := cart_version c |}
                      (payment_id ctPayment) ;;
     log info "PayPal payment recorded in commercetools" ;;;
     order <- OrderClient.createOrderFromCart backend updatedCart ;;
     log info "Order created successfully for PayPal payment" ;;;
     ret (captureResponse paypalOrderId ctPayment order))
    (fun err =>
       log error "Error recording PayPal payment in commercetools" ;;;
       throw err).
End Service.
End PayPalPaymentServiceInitial.

(** ** Reading traces, continued *)

Definition is_log (e : Event) : bool :=
  match e with Log _ _ => true | _ => false end.

Definition is_navigate (e : Event) : bool :=
  match e with Navigate _ => true | _ => false end.

Definition is_order_post (e : Event) : bool :=
  match e with CtPostOrder _ _ => true | _ => false end.

Definition is_capture_request (e : Event) : bool :=
  match e with ApiCapturePayPalOrder _ _ => true | _ => false end.

(** A call that writes to the commerce backend. *)
Definition is_backend_write (e : Event) : bool :=
  match e with
  | CtCreatePayment _ _ | CtAddPayment _ _ _ | CtPostOrder _ _ => true
  | _ => false
  end.

(** A call the commerce backend rejected. *)
Definition ct_rejected (e : Event) : bool :=
  match e with
  | CtGetCart _ (Throw _) | CtGetPaymentAmount _ (Throw _)
  | CtCreatePayment _ (Throw _) | CtAddPayment _ _ (Throw _)
  | CtPostOrder _ (Throw _) => true
  | _ => false
  end.

(** No commerce backend call follows a rejected one. *)
Fixpoint stops_at_rejection (evs : list Event) : bool :=
  match evs with
  | [] => true
  | e :: rest =>
      if ct_rejected e then forallb (fun e' => negb (is_backend_call e')) rest
      else stops_at_rejection rest
  end.

(** The payment reference a successful confirm call of the processor API
    carried. *)
Definition confirmed_reference (e : Event) : option string :=
  match e with
  | ApiConfirmPaymentIntent req (Ok _) => Some (cpi_paymentReference req)
  | ApiConfirmSubscriptionPayment req (Ok _) => Some (csp_paymentReference req)
  | _ => None
  end.

(** The id the provider's client-side confirmation returned. *)
Definition provider_confirmation (e : Event) : option string :=
  match e with
  | StripeConfirmPayment _ (Ok i) | StripeConfirmSetupIntent _ (Ok i) => Some (intent_id i)
  | _ => None
  end.

(** The provider confirmation id a confirm call of the processor API
    carried, if it carried one. *)
Definition confirmed_intent (e : Event) : option (option string) :=
  match e with
  | ApiConfirmPaymentIntent req _ => Some (Some (cpi_paymentIntentId req))
  | ApiConfirmSubscriptionPayment req _ => Some (csp_paymentIntentId req)
  | _ => None
  end.

Definition without_return_url (r : PayPalCaptureResponse) : PayPalCaptureResponse :=
  {| orderId := orderId r; status := status r;
     paymentReference := paymentReference r; ctOrderId := ctOrderId r;
     capture_orderNumber := capture_orderNumber r; merchantReturnUrl := None |}.

(** The search parameters [createPayPalPayment] appends to the return URL. *)
Definition confirmation_params (res : PayPalCaptureResponse) : list (string * string) :=
  [ ("paymentReference", js_or_lit (paymentReference res) "");
    ("orderId", js_or_lit (ctOrderId res) "");
    ("orderNumber", js_or_lit (capture_orderNumber res) "");
    ("paymentMethod", "paypal");
    ("status", "completed") ].

(** The completion payload of [createPayPalPayment]. *)
Definition settlement_payload (paypalOrderId : string) (res : PayPalCaptureResponse)
    : PaymentResult :=
  {| isSuccess := true; result_paymentReference := paymentReference res;
     paymentIntent := paypalOrderId; result_orderId := ctOrderId res;
     result_orderNumber := capture_orderNumber res |}.




(** A cart the sample store does not hold. *)
Definition unknown_cart : Cart :=
  {| cart_id := "cart-0"; cart_version := 1; customerId := None;
     anonymousId := None; totalPrice := {| currencyCode := "EUR"; centAmount := 0 |};
     cart_payments := []; cart_ordered := false |}.

(** A settlement answer whose return URL is a relative path. *)
Definition relative_capture : PayPalCaptureResponse :=
  {| orderId := "EC-1"; status := "COMPLETED"; paymentReference := Some "payment-0";
     ctOrderId := Some "order-0"; capture_orderNumber := None;
     merchantReturnUrl := Some "/thanks" |}.





(** An api-service that resolves with the body of whatever reply it got. *)
Definition hand_over_reply {S} (code : Z) (reply : PayPalCaptureResponse)
    : M S PayPalCaptureResponse :=
  ret reply.


(** * Proofs *)

(** ** Running computations *)

Lemma events_of_app {S A} (m : M S A) (w : World S) (evs : list Event) :
  trace (m w).2 = trace w ++ evs -> events_of m w = evs.
Proof. unfold events_of. intros ->. apply drop_app_length. Qed.

Lemma events_of_run {S A} (m : M S A) (w w' : World S) (r : result A)
    (evs : list Event) :
  m w = (r, w') -> trace w' = trace w ++ evs -> events_of m w = evs.
Proof. intros Hrun Htrace. apply events_of_app. rewrite Hrun. exact Htrace. Qed.

Ltac unfold_monad :=
  cbv [bind try_catch call ask emit log ret throw deref get_store modify_store
       store trace fst snd negb].

Ltac new_events :=
  unfold events_of; unfold_monad; rewrite <- ?app_assoc, ?drop_app_length.

(** Symbolic execution of a service run: case analysis on what each
    backend call answers, in the order the calls are made. *)
Ltac backend_answer :=
  match goal with
  | |- context [ct_getCart ?b ?i ?s] =>
      destruct (ct_getCart b i s) as [[[?c|]|?e] ?s] eqn:?
  | |- context [ct_getPaymentAmount ?b ?c ?s] =>
      destruct (ct_getPaymentAmount b c s) as [[?amt|?e] ?s] eqn:?
  | |- context [ct_createPayment ?b ?d ?s] =>
      destruct (ct_createPayment b d s) as [[?p|?e] ?s] eqn:?
  | |- context [ct_addPayment ?b ?r ?p ?s] =>
      destruct (ct_addPayment b r p s) as [[?updated|?e] ?s] eqn:?
  | |- context [ct_postOrder ?b ?d ?s] =>
      destruct (ct_postOrder b d s) as [[?o|?e] ?s] eqn:?
  end.

Ltac unfold_service :=
  unfold PayPalPaymentService.capturePayPalOrder,
    PayPalPaymentServiceGuarded.capturePayPalOrder,
    PayPalPaymentServiceInitial.capturePayPalOrder,
    PayPalPaymentServiceConfig.config,
    OrderClient.createOrderFromCart,
    getCart, getPaymentAmount, ctPaymentService_createPayment, addPayment, orders_post.

Ltac run_service :=
  unfold events_of; unfold_service; unfold_monad;
  repeat (backend_answer; unfold_monad);
  rewrite <- ?app_assoc, ?drop_app_length; cbn [app].

(** ** The settlement service and the order client *)

Section ServerFacts.
Context {S : Type}.
Variable backend : Backend S.
Variable ctx : RequestContext.
Variable config : Config.

(** Every path through [createOrderFromCart]. *)
Lemma createOrderFromCart_run (cart : Cart) (w : World S) :
  let id := Some (cart_id cart) in
  let fetched := ct_getCart backend id (store w) in
  let G := CtGetCart id (fetched.1) in
  let failed := Log console_error "Failed to create order from cart:" in
  OrderClient.createOrderFromCart backend cart w =
  match fetched with
  | (Ok (Some latest), s1) =>
      let d := orderDraft cart latest in
      match ct_postOrder backend d s1 with
      | (Ok o, s2) => (Ok o, mkWorld s2 (trace w ++ [G; CtPostOrder d (Ok o)]))
      | (Throw e, s2) =>
          (Throw (orderFailure e),
           mkWorld s2 (trace w ++ [G; CtPostOrder d (Throw e); failed]))
      end
  | (Ok None, s1) =>
      (Throw (orderFailure (TypeError_undefined "version")),
       mkWorld s1 (trace w ++ [G; failed]))
  | (Throw e, s1) =>
      (Throw (orderFailure e), mkWorld s1 (trace w ++ [G; failed]))
  end.
Proof.
  intros id fetched G failed. subst G fetched id. destruct w as [s t].
  unfold OrderClient.createOrderFromCart, getCart, orders_post, orderDraft. unfold_monad.
  destruct (ct_getCart backend _ s) as [[[latest|]|e] s1]; unfold_monad.
  - destruct (ct_postOrder backend _ s1) as [[o|e] s2]; unfold_monad;
      rewrite <- ?app_assoc; reflexivity.
  - rewrite <- ?app_assoc; reflexivity.
  - rewrite <- ?app_assoc; reflexivity.
Qed.

End ServerFacts.

Section SettlementRuns.
Context {S : Type}.
Variable backend : Backend S.
Variable ctx : RequestContext.
Variable config : Config.




End SettlementRuns.

Section SettlementEndToEnd.
Context {S : Type}.
Variable backend : Backend S.
Variable ctx : RequestContext.
Variable config : Config.
Variable env : Surroundings.
Variable mode : PaymentMode.
Variable api_on_failure : Z -> PayPalCaptureResponse -> M S PayPalCaptureResponse.

End SettlementEndToEnd.




(** What the assumption on the api-service is for: createPayPalPayment
    does not read the status of what the capture call resolves with, so an
    api-service that hands over the body of the 500 reply makes it invoke
    the completion callback for a settlement that created no payment. *)
Example completion_follows_whatever_the_api_resolves :
  let end_to_end := Settlement.settle ReferenceBackend.backend context_without_cart
                      sample_config (checkout (Ok None) returns_normally 1999)
                      payment hand_over_reply "EC-1" in
  List.filter milestone (events_of end_to_end (mkWorld sample_store [])) =
    [OnComplete {| isSuccess := true; result_paymentReference := None;
                   paymentIntent := "EC-1"; result_orderId := None;
                   result_orderNumber := None |} (Ok tt)].
Proof. vm_compute. reflexivity. Qed.

(** C4. The cart version sent in an order-creation request is the version
    of the cart re-fetched by id immediately before the request is posted;
    within a settlement that re-fetch comes after the payment was attached,
    so the version is the one current after the attach step. *)
Theorem C4_order_posted_with_refetched_version
    {S : Type} (backend : Backend S) (ctx : RequestContext) (config : Config) :
  (forall (cart : Cart) (w : World S) d r,
     In (CtPostOrder d r) (events_of (OrderClient.createOrderFromCart backend cart) w) ->
     exists latest s1 post,
       ct_getCart backend (Some (cart_id cart)) (store w) = (Ok (Some latest), s1) /\
       events_of (OrderClient.createOrderFromCart backend cart) w
         = [CtGetCart (Some (cart_id cart)) (Ok (Some latest)); CtPostOrder d r] ++ post /\
       draft_version d = cart_version latest /\
       order_cart_id d = cart_id cart /\
       r = (ct_postOrder backend d s1).1) /\
  (forall (paypalOrderId : string) (w : World S) d r,
     In (CtPostOrder d r)
        (events_of (PayPalPaymentService.capturePayPalOrder backend ctx config paypalOrderId) w) ->
     exists pre resource paymentId updated latest post s3 s4 s5,
       events_of (PayPalPaymentService.capturePayPalOrder backend ctx config paypalOrderId) w
         = pre ++ [CtAddPayment resource paymentId (Ok updated);
                   Log info "PayPal payment recorded in commercetools";
                   CtGetCart (Some (cart_id updated)) (Ok (Some latest));
                   CtPostOrder d r] ++ post /\
       ct_addPayment backend resource paymentId s3 = (Ok updated, s4) /\
       ct_getCart backend (Some (cart_id updated)) s4 = (Ok (Some latest), s5) /\
       draft_version d = cart_version latest /\
       order_cart_id d = cart_id updated /\
       r = (ct_postOrder backend d s5).1).
Proof.
  split.
  - intros cart [s t] d r. unfold events_of. rewrite createOrderFromCart_run.
    cbn [store trace].
    destruct (ct_getCart backend _ s) as [[[latest|]|e] s1] eqn:E1; cbn [fst snd].
    + destruct (ct_postOrder backend _ s1) as [[o|e] s2] eqn:E2;
        cbn [trace snd]; rewrite drop_app_length; simpl In;
        intros [?|[[= <- <-]|H]]; try discriminate; try (destruct H; try discriminate; tauto);
        exists latest, s1; eexists; rewrite E2; repeat split; reflexivity.
    + cbn [trace snd]; rewrite drop_app_length; simpl In. intuition discriminate.
    + cbn [trace snd]; rewrite drop_app_length; simpl In. intuition discriminate.
  - intros id [s t] d r.
    unfold PayPalPaymentService.capturePayPalOrder, getCart, getPaymentAmount,
      ctPaymentService_createPayment, addPayment.
    new_events.
    destruct (ct_getCart backend _ s) as [[[c|]|e] s1] eqn:E1; new_events;
      try (destruct (ct_getPaymentAmount backend _ s1) as [[amt|e'] s2] eqn:E2; new_events);
      try (simpl In; intuition discriminate).
    destruct (ct_createPayment backend _ s2) as [[p|e'] s3] eqn:E3; new_events;
      try (simpl In; intuition discriminate).
    destruct (ct_addPayment backend _ _ s3) as [[updated|e'] s4] eqn:E4; new_events;
      try (simpl In; intuition discriminate).
    rewrite createOrderFromCart_run. new_events.
    destruct (ct_getCart backend _ s4) as [[[latest|]|e'] s5] eqn:E5; new_events;
      try (simpl In; intuition discriminate).
    destruct (ct_postOrder backend _ s5) as [[o|e'] s6] eqn:E6; new_events;
      simpl In; intros H;
      repeat (destruct H as [H|H]; try discriminate); try contradiction;
      injection H as <- <-;
      eexists [_; _; _], _, _, updated, latest, _, s3, s4, s5;
      rewrite E6; repeat split; try eassumption; reflexivity.
Qed.

(** C4 at work: the sample cart is at version 7; the order client posts
    version 7, and the settlement, having attached the payment, posts 8. *)
Lemma C4_witness_reference_settlement :
  let settle := PayPalPaymentService.capturePayPalOrder ReferenceBackend.backend
                  sample_context sample_config "EC-1" in
  let create := OrderClient.createOrderFromCart ReferenceBackend.backend sample_cart in
  let w := mkWorld sample_store [] in
  let sent version :=
    {| order_cart_id := "cart-1"; order_cart_typeId := "cart";
       draft_shipmentState := "Pending"; draft_orderState := "Open";
       draft_version := version; draft_paymentState := "Paid" |} in
  let created version :=
    Ok {| order_id := "order-0"; orderNumber := None; order_from_cart := "cart-1";
          order_from_version := version |} in
  (In (CtPostOrder (sent 7) (created 7)) (events_of create w) /\
   exists latest s1 post,
     ct_getCart ReferenceBackend.backend (Some (cart_id sample_cart)) (store w)
       = (Ok (Some latest), s1) /\
     events_of create w
       = [CtGetCart (Some (cart_id sample_cart)) (Ok (Some latest));
          CtPostOrder (sent 7) (created 7)] ++ post /\
     draft_version (sent 7) = cart_version latest /\
     order_cart_id (sent 7) = cart_id sample_cart /\
     created 7 = (ct_postOrder ReferenceBackend.backend (sent 7) s1).1) /\
  (In (CtPostOrder (sent 8) (created 8)) (events_of settle w) /\
   exists pre resource paymentId updated latest post s3 s4 s5,
     events_of settle w
       = pre ++ [CtAddPayment resource paymentId (Ok updated);
                 Log info "PayPal payment recorded in commercetools";
                 CtGetCart (Some (cart_id updated)) (Ok (Some latest));
                 CtPostOrder (sent 8) (created 8)] ++ post /\
     ct_addPayment ReferenceBackend.backend resource paymentId s3 = (Ok updated, s4) /\
     ct_getCart ReferenceBackend.backend (Some (cart_id updated)) s4
       = (Ok (Some latest), s5) /\
     draft_version (sent 8) = cart_version latest /\
     order_cart_id (sent 8) = cart_id updated /\
     created 8 = (ct_postOrder ReferenceBackend.backend (sent 8) s5).1).
Proof.
  cbv zeta.
  assert (Hcreate : In (CtPostOrder _ _)
            (events_of (OrderClient.createOrderFromCart ReferenceBackend.backend sample_cart)
               (mkWorld sample_store [])))
    by (vm_compute; right; left; reflexivity).
  assert (Hsettle : In (CtPostOrder _ _)
            (events_of (PayPalPaymentService.capturePayPalOrder ReferenceBackend.backend
                          sample_context sample_config "EC-1")
               (mkWorld sample_store [])))
    by (vm_compute; do 6 right; left; reflexivity).
  split; (split; [eassumption|]).
  - exact (proj1 (C4_order_posted_with_refetched_version ReferenceBackend.backend
                    sample_context sample_config) _ _ _ _ Hcreate).
  - exact (proj2 (C4_order_posted_with_refetched_version ReferenceBackend.backend
                    sample_context sample_config) _ _ _ _ Hsettle).
Defined.

(** C7, amended. capturePayPalOrder of paypal-payment.service.ts has no
    check of its own: every run starts by handing the context's cart id to
    the cart service as it is.  When the cart service rejects the fetch,
    that rejection is logged and re-thrown unchanged; when it answers with
    no cart, the run fails with the rejection of the amount request or
    with a TypeError.  The variant with the guards fails with the context
    error before any backend call when the context resolves no cart id,
    and with the not-found error when the cart service answers with no
    cart.  In all of these failures no payment record is created. *)
Theorem C7_context_and_missing_cart_failures
    {S : Type} (backend : Backend S) (ctx : RequestContext) (config : Config)
    (paypalOrderId : string) (w : World S) :
  let service := PayPalPaymentService.capturePayPalOrder backend ctx config paypalOrderId in
  let settle := PayPalPaymentServiceGuarded.capturePayPalOrder backend ctx config
                  paypalOrderId in
  let started := Log info "Starting PayPal order capture process" in
  let failed := Log error "Error recording PayPal payment in commercetools" in
  (* paypal-payment.service.ts *)
  (exists r rest, events_of service w = CtGetCart (getCartIdFromContext ctx) r :: rest) /\
  (forall e s1,
     ct_getCart backend (getCartIdFromContext ctx) (store w) = (Throw e, s1) ->
     service w =
       (Throw e,
        mkWorld s1 (trace w ++ [CtGetCart (getCartIdFromContext ctx) (Throw e); failed])) /\
     count is_createPayment (events_of service w) = 0%nat) /\
  (forall s1,
     ct_getCart backend (getCartIdFromContext ctx) (store w) = (Ok None, s1) ->
     (exists e, (service w).1 = Throw e /\
        (e = TypeError_undefined "customerId" \/
         (ct_getPaymentAmount backend None s1).1 = Throw e)) /\
     last (events_of service w) = Some failed /\
     count is_createPayment (events_of service w) = 0%nat) /\
  (* the variant with the guards *)
  (truthy (getCartIdFromContext ctx) = false ->
     settle w =
       (Throw PayPalPaymentServiceGuarded.ContextError,
        mkWorld (store w)
          (trace w ++ [started; Log error "Cart ID not found in context"; failed])) /\
     count is_backend_call (events_of settle w) = 0%nat) /\
  (forall cartId s1,
     getCartIdFromContext ctx = Some cartId ->
     cartId <> "" ->
     ct_getCart backend (Some cartId) (store w) = (Ok None, s1) ->
     settle w =
       (Throw (PayPalPaymentServiceGuarded.NotFoundError cartId),
        mkWorld s1
          (trace w ++ [started; Log info "Retrieved cart ID from context";
                       CtGetCart (Some cartId) (Ok None);
                       Log error "Cart not found in commercetools"; failed])) /\
     count is_createPayment (events_of settle w) = 0%nat) /\
  (forall cartId e s1,
     getCartIdFromContext ctx = Some cartId ->
     cartId <> "" ->
     ct_getCart backend (Some cartId) (store w) = (Throw e, s1) ->
     settle w =
       (Throw e,
        mkWorld s1
          (trace w ++ [started; Log info "Retrieved cart ID from context";
                       CtGetCart (Some cartId) (Throw e); failed])) /\
     count is_createPayment (events_of settle w) = 0%nat).
Proof.
  intros service settle started failed. subst service settle started failed.
  destruct w as [s t]. cbn [store trace].
  split; [|split; [|split; [|split; [|split]]]].
  - run_service; do 2 eexists; reflexivity.
  - intros e s1 Hget.
    split; [unfold_service; unfold_monad | unfold events_of; unfold_service; unfold_monad];
      rewrite Hget; unfold_monad; rewrite <- ?app_assoc, ?drop_app_length; reflexivity.
  - intros s1 Hget. unfold events_of. unfold_service. unfold_monad. rewrite Hget.
    unfold_monad.
    destruct (ct_getPaymentAmount backend None s1) as [[amt|e] s2]; unfold_monad;
      rewrite <- ?app_assoc, ?drop_app_length;
      (split; [eexists; split; [reflexivity|]; first [left; reflexivity | right; reflexivity]
              |split; reflexivity]).
  - unfold PayPalPaymentServiceGuarded.capturePayPalOrder, getCart.
    intros Hctx. split; [unfold_monad | new_events]; rewrite Hctx; unfold_monad;
      rewrite <- ?app_assoc, ?drop_app_length; reflexivity.
  - unfold PayPalPaymentServiceGuarded.capturePayPalOrder, getCart.
    intros cartId s1 Hctx Hne Hget. apply String.eqb_neq in Hne.
    split; [unfold_monad | new_events]; rewrite Hctx; cbn [truthy]; rewrite Hne;
      unfold_monad; rewrite Hget; unfold_monad;
      rewrite <- ?app_assoc, ?drop_app_length; reflexivity.
  - unfold PayPalPaymentServiceGuarded.capturePayPalOrder, getCart.
    intros cartId e s1 Hctx Hne Hget. apply String.eqb_neq in Hne.
    split; [unfold_monad | new_events]; rewrite Hctx; cbn [truthy]; rewrite Hne;
      unfold_monad; rewrite Hget; unfold_monad;
      rewrite <- ?app_assoc, ?drop_app_length; reflexivity.
Qed.

(** C7 at work: a request without a cart id, and a backend that knows no
    cart, on the service and on the variant with the guards. *)
Lemma C7_witness_missing_context_and_cart :
  let started := Log info "Starting PayPal order capture process" in
  let failed := Log error "Error recording PayPal payment in commercetools" in
  let service_no_context := PayPalPaymentService.capturePayPalOrder ReferenceBackend.backend
                              context_without_cart sample_config "EC-1" in
  let service_no_cart := PayPalPaymentService.capturePayPalOrder backend_without_carts
                           sample_context sample_config "EC-1" in
  let no_context := PayPalPaymentServiceGuarded.capturePayPalOrder ReferenceBackend.backend
                      context_without_cart sample_config "EC-1" in
  let no_cart := PayPalPaymentServiceGuarded.capturePayPalOrder backend_without_carts
                   sample_context sample_config "EC-1" in
  (service_no_context (mkWorld sample_store []) =
     (Throw (ReferenceBackend.notFound "Cart"),
      mkWorld sample_store [CtGetCart None (Throw (ReferenceBackend.notFound "Cart")); failed]) /\
   count is_createPayment (events_of service_no_context (mkWorld sample_store [])) = 0%nat) /\
  (last (events_of service_no_cart (mkWorld tt [])) = Some failed /\
   count is_createPayment (events_of service_no_cart (mkWorld tt [])) = 0%nat) /\
  (no_context (mkWorld sample_store []) =
     (Throw PayPalPaymentServiceGuarded.ContextError,
      mkWorld sample_store [started; Log error "Cart ID not found in context"; failed]) /\
   count is_backend_call (events_of no_context (mkWorld sample_store [])) = 0%nat) /\
  (no_cart (mkWorld tt []) =
     (Throw (PayPalPaymentServiceGuarded.NotFoundError "cart-1"),
      mkWorld tt [started; Log info "Retrieved cart ID from context";
                  CtGetCart (Some "cart-1") (Ok None);
                  Log error "Cart not found in commercetools"; failed]) /\
   count is_createPayment (events_of no_cart (mkWorld tt [])) = 0%nat).
Proof.
  cbv zeta.
  destruct (C7_context_and_missing_cart_failures ReferenceBackend.backend
              context_without_cart sample_config "EC-1" (mkWorld sample_store []))
    as (_ & Hrejected & _ & Hcontext & _).
  destruct (C7_context_and_missing_cart_failures backend_without_carts
              sample_context sample_config "EC-1" (mkWorld tt []))
    as (_ & _ & Habsent & _ & Hmissing & _).
  split; [exact (Hrejected (ReferenceBackend.notFound "Cart") sample_store eq_refl)|].
  split; [exact (proj2 (Habsent tt eq_refl))|].
  split; [exact (Hcontext eq_refl)|].
  apply (Hmissing "cart-1" tt); [reflexivity | discriminate | reflexivity].
Defined.

(** C7, as stated, fails on the service of paypal-payment.service.ts: with
    no cart id in the context it calls the cart service and fails with the
    cart service's error, not with the context error; and when the cart
    service answers with no cart it fails with a TypeError, not with the
    not-found error. *)
Lemma C7_counterexample_service_without_guards :
  let no_context := PayPalPaymentService.capturePayPalOrder ReferenceBackend.backend
                      context_without_cart sample_config "EC-1" in
  let no_cart := PayPalPaymentService.capturePayPalOrder backend_without_carts
                   sample_context sample_config "EC-1" in
  getCartIdFromContext context_without_cart = None /\
  (no_context (mkWorld sample_store [])).1 = Throw (ReferenceBackend.notFound "Cart") /\
  (no_context (mkWorld sample_store [])).1 <> Throw PayPalPaymentServiceGuarded.ContextError /\
  count is_backend_call (events_of no_context (mkWorld sample_store [])) = 1%nat /\
  ct_getCart backend_without_carts (getCartIdFromContext sample_context) tt = (Ok None, tt) /\
  (no_cart (mkWorld tt [])).1 = Throw (TypeError_undefined "totalPrice") /\
  (no_cart (mkWorld tt [])).1 <> Throw (PayPalPaymentServiceGuarded.NotFoundError "cart-1").
Proof.
  cbv zeta. vm_compute. repeat split; discriminate.
Qed.

(** The service of paypal-payment.service.ts hands whatever the context
    resolves to the cart service unchecked; when that call is rejected the
    error is re-thrown as it is and nothing else was called. *)
Lemma capturePayPalOrder_rejected_cart_fetch
    {S : Type} (backend : Backend S) (ctx : RequestContext) (config : Config)
    (paypalOrderId : string) (w : World S) (e : exn) (s1 : S) :
  ct_getCart backend (getCartIdFromContext ctx) (store w) = (Throw e, s1) ->
  PayPalPaymentService.capturePayPalOrder backend ctx config paypalOrderId w =
    (Throw e,
     mkWorld s1
       (trace w ++ [CtGetCart (getCartIdFromContext ctx) (Throw e);
                    Log error "Error recording PayPal payment in commercetools"])).
Proof.
  intros Hget. destruct w as [s t]. cbn [store] in Hget.
  unfold PayPalPaymentService.capturePayPalOrder, getCart. unfold_monad.
  rewrite Hget. unfold_monad. rewrite <- !app_assoc. reflexivity.
Qed.

(** The guarded variant, when it succeeds, made the same backend calls in
    the same order as the service of paypal-payment.service.ts. *)
Lemma guarded_capturePayPalOrder_success
    {S : Type} (backend : Backend S) (ctx : RequestContext) (config : Config)
    (id : string) (w w1 : World S) (res : PayPalCaptureResponse) :
  PayPalPaymentServiceGuarded.capturePayPalOrder backend ctx config id w = (Ok res, w1) ->
  exists c amt p updated latest o,
    List.filter is_backend_call
      (events_of (PayPalPaymentServiceGuarded.capturePayPalOrder backend ctx config id) w)
    = [ CtGetCart (getCartIdFromContext ctx) (Ok (Some c));
        CtGetPaymentAmount (Some c) (Ok amt);
        CtCreatePayment (PayPalPaymentService.paymentDraft ctx c amt id) (Ok p);
        CtAddPayment {| resource_id := cart_id c; resource_version := cart_version c |}
          (payment_id p) (Ok updated);
        CtGetCart (Some (cart_id updated)) (Ok (Some latest));
        CtPostOrder (orderDraft updated latest) (Ok o) ] /\
    truthy (getCartIdFromContext ctx) = true /\
    res = PayPalPaymentService.captureResponse ctx config id p o.
Proof.
  destruct w as [s t].
  unfold PayPalPaymentServiceGuarded.capturePayPalOrder, getCart, getPaymentAmount,
    ctPaymentService_createPayment, addPayment.
  new_events.
  destruct (truthy (getCartIdFromContext ctx)) eqn:Hctx; new_events; [|discriminate].
  destruct (ct_getCart backend _ s) as [[[c|]|e] s1]; new_events; try discriminate.
  destruct (ct_getPaymentAmount backend _ s1) as [[amt|e] s2]; new_events;
    try discriminate.
  destruct (ct_createPayment backend _ s2) as [[p|e] s3]; new_events; try discriminate.
  destruct (ct_addPayment backend _ _ s3) as [[updated|e] s4]; new_events;
    try discriminate.
  rewrite !createOrderFromCart_run. cbn [store trace].
  destruct (ct_getCart backend _ s4) as [[[latest|]|e] s5]; cbn [fst snd];
    [destruct (ct_postOrder backend _ s5) as [[o|e] s6]| |]; new_events;
    try discriminate.
  intros [= <- <-]. exists c, amt, p, updated, latest, o.
  cbn [trace snd]. rewrite <- ?app_assoc, ?drop_app_length. repeat split.
Qed.

Section ReferenceFacts.
Variable ctx : RequestContext.
Variable config : Config.

Lemma freshPaymentId_inj (s s' : ReferenceBackend.Store) :
  ReferenceBackend.freshPaymentId s = ReferenceBackend.freshPaymentId s' -> length (ReferenceBackend.payments s) = length (ReferenceBackend.payments s').
Proof.
  unfold ReferenceBackend.freshPaymentId. intros H.
  apply (inj (String.append "payment-")) in H.
  apply (inj pretty) in H. lia.
Qed.

Lemma reference_getCart_found (i : string) (c : Cart) (s : ReferenceBackend.Store) :
  ReferenceBackend.carts s !! i = Some c ->
  ReferenceBackend.getCart (Some i) s = (Ok (Some c), s).
Proof. unfold ReferenceBackend.getCart. cbn [mbind option_bind]. intros ->. reflexivity. Qed.

Lemma reference_addPayment_current (c : Cart) (paymentId : string)
    (s : ReferenceBackend.Store) :
  ReferenceBackend.carts s !! cart_id c = Some c ->
  ReferenceBackend.addPayment
    {| resource_id := cart_id c; resource_version := cart_version c |} paymentId s
  = (Ok (ReferenceBackend.attach paymentId c),
     {| ReferenceBackend.carts := <[cart_id c := ReferenceBackend.attach paymentId c]> (ReferenceBackend.carts s);
        ReferenceBackend.payments := ReferenceBackend.payments s;
        ReferenceBackend.orders := ReferenceBackend.orders s |}).
Proof.
  unfold ReferenceBackend.addPayment. cbn [resource_id resource_version].
  intros ->. rewrite Z.eqb_refl. reflexivity.
Qed.

(** Posting an order for a cart at its current version: whatever the
    outcome, the payment records stay and the cart keeps its payments. *)
Lemma reference_postOrder_keeps (c latest : Cart) (s : ReferenceBackend.Store) :
  ReferenceBackend.carts s !! cart_id c = Some latest ->
  cart_id latest = cart_id c ->
  exists r s' c',
    ReferenceBackend.postOrder (orderDraft c latest) s = (r, s') /\
    ReferenceBackend.payments s' = ReferenceBackend.payments s /\
    ReferenceBackend.carts s' !! cart_id c = Some c' /\
    cart_id c' = cart_id c /\
    cart_payments c' = cart_payments latest.
Proof.
  intros Hc Hid. unfold ReferenceBackend.postOrder.
  cbn [order_cart_id orderDraft draft_version]. rewrite Hc, Z.eqb_refl. cbn [negb].
  destruct (cart_ordered latest).
  - exists (Throw ReferenceBackend.alreadyOrdered), s, latest. auto.
  - eexists _, _, _. split; [reflexivity|].
    cbn [ReferenceBackend.payments ReferenceBackend.carts].
    rewrite Hid, lookup_insert_eq. auto.
Qed.

(** One settlement on the reference backend, for a cart the context
    resolves: a payment record with a fresh id is appended and attached. *)
Lemma settle_on_reference (paypalOrderId cartId : string) (cart : Cart)
    (s : ReferenceBackend.Store) (t : list Event) :
  getCartIdFromContext ctx = Some cartId ->
  ReferenceBackend.carts s !! cartId = Some cart ->
  cart_id cart = cartId ->
  let settle := PayPalPaymentService.capturePayPalOrder ReferenceBackend.backend
                  ctx config paypalOrderId in
  let p := {| payment_id := ReferenceBackend.freshPaymentId s;
              payment_draft := PayPalPaymentService.paymentDraft ctx cart (totalPrice cart)
                                 paypalOrderId |} in
  exists attached,
    ReferenceBackend.payments (store (settle (mkWorld s t)).2)
      = ReferenceBackend.payments s ++ [p] /\
    ReferenceBackend.carts (store (settle (mkWorld s t)).2) !! cartId = Some attached /\
    cart_id attached = cartId /\
    cart_payments attached = cart_payments cart ++ [payment_id p] /\
    List.filter is_createPayment (events_of settle (mkWorld s t))
      = [CtCreatePayment (payment_draft p) (Ok p)].
Proof.
  intros Hctx Hcart <- settle p. subst settle.
  set (s2 := {| ReferenceBackend.carts := ReferenceBackend.carts s;
                ReferenceBackend.payments := ReferenceBackend.payments s ++ [p];
                ReferenceBackend.orders := ReferenceBackend.orders s |}).
  assert (Hattach := reference_addPayment_current cart (payment_id p) s2 Hcart).
  set (s3 := {| ReferenceBackend.carts := _ |}) in Hattach.
  assert (Hlatest : ReferenceBackend.carts s3 !! cart_id (ReferenceBackend.attach (payment_id p) cart)
                    = Some (ReferenceBackend.attach (payment_id p) cart))
    by (cbn [ReferenceBackend.carts s3 ReferenceBackend.attach cart_id]; apply lookup_insert_eq).
  destruct (reference_postOrder_keeps _ _ s3 Hlatest eq_refl)
    as (r & s4 & c' & Hpost & Hpay & Hc' & Hid' & Hpays').
  assert (Hrun : exists res,
    PayPalPaymentService.capturePayPalOrder ReferenceBackend.backend ctx config
      paypalOrderId (mkWorld s t) =
    (res, mkWorld s4 (t ++
       [CtGetCart (Some (cart_id cart)) (Ok (Some cart));
        CtGetPaymentAmount (Some cart) (Ok (totalPrice cart));
        CtCreatePayment (payment_draft p) (Ok p);
        CtAddPayment {| resource_id := cart_id cart; resource_version := cart_version cart |}
          (payment_id p) (Ok (ReferenceBackend.attach (payment_id p) cart));
        Log info "PayPal payment recorded in commercetools";
        CtGetCart (Some (cart_id cart)) (Ok (Some (ReferenceBackend.attach (payment_id p) cart)));
        CtPostOrder (orderDraft (ReferenceBackend.attach (payment_id p) cart) (ReferenceBackend.attach (payment_id p) cart)) r] ++
       match r with
       | Ok _ => [Log info "Order created successfully for PayPal payment using same pattern as Stripe"]
       | Throw _ => [Log console_error "Failed to create order from cart:";
                     Log error "Error recording PayPal payment in commercetools"]
       end))).
  { unfold PayPalPaymentService.capturePayPalOrder, getCart, getPaymentAmount,
      ctPaymentService_createPayment, addPayment.
    rewrite Hctx. unfold_monad.
    cbn [ReferenceBackend.backend ct_getCart ct_getPaymentAmount ct_createPayment
         ct_addPayment].
    rewrite (reference_getCart_found _ _ _ Hcart). unfold_monad.
    unfold ReferenceBackend.getPaymentAmount, ReferenceBackend.createPayment.
    fold p. fold s2. rewrite Hattach.
    rewrite createOrderFromCart_run. cbn [store trace].
    cbn [ReferenceBackend.backend ct_getCart ct_postOrder].
    rewrite (reference_getCart_found _ _ _ Hlatest). cbn [fst snd].
    rewrite Hpost.
    destruct r as [o|e]; eexists; rewrite <- ?app_assoc; reflexivity. }
  destruct Hrun as (res & Hrun).
  exists c'. rewrite Hrun. cbn [snd store].
  repeat split; try assumption.
  rewrite (events_of_run _ _ _ _ _ Hrun eq_refl). destruct r; reflexivity.
Qed.
End ReferenceFacts.

(** C5. Nothing keyed on the provider order id precedes payment-record
    creation: on any backend, once the cart and its amount are fetched the
    create-payment call is made, with the order id as interface id.  So
    settling twice with the same provider order id, the second time against
    the cart the first settlement attached a payment to, performs the
    create-payment step both times and leaves two distinct payment
    records. *)
Theorem C5_settling_twice_creates_two_payment_records
    (ctx : RequestContext) (config : Config) (paypalOrderId : string) :
  (forall (S : Type) (backend : Backend S) (w : World S) c s1 amt s2,
     ct_getCart backend (getCartIdFromContext ctx) (store w) = (Ok (Some c), s1) ->
     ct_getPaymentAmount backend (Some c) s1 = (Ok amt, s2) ->
     exists draft r rest,
       events_of (PayPalPaymentService.capturePayPalOrder backend ctx config paypalOrderId) w
         = [CtGetCart (getCartIdFromContext ctx) (Ok (Some c));
            CtGetPaymentAmount (Some c) (Ok amt);
            CtCreatePayment draft r] ++ rest /\
       interfaceId draft = paypalOrderId /\
       r = (ct_createPayment backend draft s2).1) /\
  (forall (cartId : string) (cart : Cart) (s : ReferenceBackend.Store) (t : list Event),
     getCartIdFromContext ctx = Some cartId ->
     ReferenceBackend.carts s !! cartId = Some cart ->
     cart_id cart = cartId ->
     let settle := PayPalPaymentService.capturePayPalOrder ReferenceBackend.backend
                     ctx config paypalOrderId in
     let w1 := (settle (mkWorld s t)).2 in
     let w2 := (settle w1).2 in
     exists p1 p2 attached,
       ReferenceBackend.payments (store w2) = ReferenceBackend.payments s ++ [p1; p2] /\
       payment_id p1 <> payment_id p2 /\
       interfaceId (payment_draft p1) = paypalOrderId /\
       interfaceId (payment_draft p2) = paypalOrderId /\
       ReferenceBackend.carts (store w1) !! cartId = Some attached /\
       In (payment_id p1) (cart_payments attached) /\
       List.filter is_createPayment (events_of settle (mkWorld s t))
         = [CtCreatePayment (payment_draft p1) (Ok p1)] /\
       List.filter is_createPayment (events_of settle w1)
         = [CtCreatePayment (payment_draft p2) (Ok p2)]).
Proof.
  split.
  { intros S backend [s t] c s1 amt s2 Hcart Hamount. cbn [store] in Hcart.
    unfold PayPalPaymentService.capturePayPalOrder, getCart, getPaymentAmount,
      ctPaymentService_createPayment, addPayment.
    new_events. rewrite Hcart. new_events. rewrite Hamount. new_events.
    destruct (ct_createPayment backend _ s2) as [[p|e] s3] eqn:Hcreate; new_events.
    - destruct (ct_addPayment backend _ _ s3) as [[updated|e] s4]; new_events.
      + rewrite createOrderFromCart_run. cbn [store trace].
        destruct (ct_getCart backend _ s4) as [[[latest|]|e] s5]; cbn [fst snd];
          [destruct (ct_postOrder backend _ s5) as [[o|e] s6]| |]; new_events;
          eexists _, _, _; (split; [reflexivity|split; [reflexivity|]]);
          rewrite Hcreate; reflexivity.
      + eexists _, _, _; (split; [reflexivity|split; [reflexivity|]]);
          rewrite Hcreate; reflexivity.
    - eexists _, _, _; (split; [reflexivity|split; [reflexivity|]]);
        rewrite Hcreate; reflexivity. }
  intros cartId cart s t Hctx Hcart Hid. cbv zeta.
  destruct (settle_on_reference ctx config paypalOrderId cartId cart s t Hctx Hcart Hid)
    as (attached & Hpay1 & Hcart1 & Hid1 & Hatt & Hev1).
  cbv zeta in Hpay1, Hcart1, Hatt, Hev1.
  destruct (PayPalPaymentService.capturePayPalOrder ReferenceBackend.backend ctx config
              paypalOrderId (mkWorld s t)).2 as [s1 t1].
  cbn [store] in Hpay1, Hcart1.
  destruct (settle_on_reference ctx config paypalOrderId cartId attached s1 t1 Hctx Hcart1 Hid1)
    as (attached2 & Hpay2 & _ & _ & _ & Hev2).
  cbv zeta in Hpay2, Hev2.
  exists {| payment_id := ReferenceBackend.freshPaymentId s;
            payment_draft := PayPalPaymentService.paymentDraft ctx cart (totalPrice cart)
                               paypalOrderId |},
         {| payment_id := ReferenceBackend.freshPaymentId s1;
            payment_draft := PayPalPaymentService.paymentDraft ctx attached
                               (totalPrice attached) paypalOrderId |},
         attached.
  split; [|split; [|split; [|split; [|split; [|split; [|split]]]]]].
  - rewrite Hpay2, Hpay1, <- app_assoc. reflexivity.
  - cbn [payment_id]. intros Heq. apply freshPaymentId_inj in Heq.
    rewrite Hpay1, length_app in Heq. cbn [length] in Heq. lia.
  - reflexivity.
  - reflexivity.
  - exact Hcart1.
  - rewrite Hatt. apply in_or_app. right. left. reflexivity.
  - exact Hev1.
  - exact Hev2.
Qed.

(** C5 at work: order EC-1 settled twice on the reference backend. *)
Lemma C5_witness_same_order_id_twice :
  let settle := PayPalPaymentService.capturePayPalOrder ReferenceBackend.backend
                  sample_context sample_config "EC-1" in
  let w1 := (settle (mkWorld sample_store [])).2 in
  let w2 := (settle w1).2 in
  (exists draft r rest,
     events_of settle (mkWorld sample_store [])
       = [CtGetCart (Some "cart-1") (Ok (Some sample_cart));
          CtGetPaymentAmount (Some sample_cart) (Ok (totalPrice sample_cart));
          CtCreatePayment draft r] ++ rest /\
     interfaceId draft = "EC-1" /\
     r = (ct_createPayment ReferenceBackend.backend draft sample_store).1) /\
  ReferenceBackend.carts sample_store !! "cart-1" = Some sample_cart /\
  exists p1 p2 attached,
    ReferenceBackend.payments (store w2)
      = ReferenceBackend.payments sample_store ++ [p1; p2] /\
    payment_id p1 <> payment_id p2 /\
    interfaceId (payment_draft p1) = "EC-1" /\
    interfaceId (payment_draft p2) = "EC-1" /\
    ReferenceBackend.carts (store w1) !! "cart-1" = Some attached /\
    In (payment_id p1) (cart_payments attached) /\
    List.filter is_createPayment (events_of settle (mkWorld sample_store []))
      = [CtCreatePayment (payment_draft p1) (Ok p1)] /\
    List.filter is_createPayment (events_of settle w1)
      = [CtCreatePayment (payment_draft p2) (Ok p2)].
Proof.
  cbv zeta.
  assert (Hcart : ReferenceBackend.carts sample_store !! "cart-1" = Some sample_cart)
    by reflexivity.
  split; [|split; [exact Hcart|]].
  - exact (proj1 (C5_settling_twice_creates_two_payment_records sample_context
                    sample_config "EC-1")
             ReferenceBackend.Store ReferenceBackend.backend (mkWorld sample_store [])
             sample_cart sample_store (totalPrice sample_cart) sample_store
             eq_refl eq_refl).
  - exact (proj2 (C5_settling_twice_creates_two_payment_records sample_context
                    sample_config "EC-1")
             "cart-1" sample_cart sample_store [] eq_refl Hcart eq_refl).
Defined.

(** ** The flow orchestrator *)

Ltac unfold_flows :=
  unfold PaymentFlows.submit, PaymentFlows.createPayment, PaymentFlows.createSubscription,
    PaymentFlows.createSetupIntent, PaymentFlows.createPayPalPayment,
    PaymentFlows.optional_call, PaymentFlows.URL_new, flowsOptions, apiService,
    stripeService, baseOptions_onComplete, baseOptions_onError;
  cbn [PaymentFlows.api PaymentFlows.stripe PaymentFlows.elements_submit
       PaymentFlows.paymentMode PaymentFlows.onComplete PaymentFlows.onError
       PaymentFlows.getPayment PaymentFlows.confirmPaymentIntent
       PaymentFlows.createSetupIntent_api PaymentFlows.createSubscriptionFromSetupIntent
       PaymentFlows.createSubscription_api PaymentFlows.confirmSubscriptionPayment
       PaymentFlows.capturePayPalOrder PaymentFlows.confirmStripePayment
       PaymentFlows.confirmStripeSetupIntent fmap option_fmap option_map].

(** Case analysis on what the next collaborator answers. *)
Ltac next_answer :=
  match goal with
  | |- context [match ?x with _ => _ end] =>
      lazymatch x with
      | context [match _ with _ => _ end] => fail
      | _ => destruct x eqn:?
      end
  end.

Ltac answers env :=
  destruct (completion_callback env) as [?cb|] eqn:?;
  cbn [fmap option_fmap option_map];
  repeat (next_answer; new_events);
  cbn [app].

(** C3. In payment mode, when the processor returns the reference pr_1 with
    client secret cs_1 and the provider confirms with id pi_1, submit makes
    the confirm call with exactly that intent id and reference, and, once
    that call succeeds, invokes the completion callback with exactly the
    successful result carrying pr_1 and pi_1. *)
Theorem C3_payment_mode_scenario
    {S : Type} (env : Surroundings) (w : World S) (cb : PaymentResult -> result unit) :
  let paymentRes :=
    {| pr_paymentReference := "pr_1"; pr_clientSecret := Some "cs_1";
       pr_merchantReturnUrl := None; pr_billingAddress := None; pr_cartId := None |} in
  let confirm := {| cpi_paymentIntentId := "pi_1"; cpi_paymentReference := "pr_1" |} in
  let completed :=
    {| isSuccess := true; result_paymentReference := Some "pr_1"; paymentIntent := "pi_1";
       result_orderId := None; result_orderNumber := None |} in
  on_elements_submit env = Ok None ->
  on_getPayment env = Ok paymentRes ->
  on_confirmStripePayment env paymentRes = Ok {| intent_id := "pi_1" |} ->
  completion_callback env = Some cb ->
  events_of (PaymentFlows.submit (flowsOptions env payment)) w =
    [ ElementsSubmit (Ok None);
      ApiGetPayment (Ok paymentRes);
      StripeConfirmPayment paymentRes (Ok {| intent_id := "pi_1" |});
      ApiConfirmPaymentIntent confirm (on_confirmPaymentIntent env confirm) ] ++
    match on_confirmPaymentIntent env confirm with
    | Ok _ =>
        OnComplete completed (cb completed) ::
        match cb completed, error_callback env with
        | Throw e, Some f => [OnError e (f e)]
        | _, _ => []
        end
    | Throw e =>
        match error_callback env with
        | Some f => [OnError e (f e)]
        | None => []
        end
    end.
Proof.
  intros paymentRes confirm completed Hsubmit Hget Hstripe Hcb. destruct w as [s t].
  unfold_flows. new_events.
  rewrite Hsubmit. new_events. rewrite Hget. new_events.
  fold paymentRes. rewrite Hstripe. new_events.
  cbn [intent_id pr_paymentReference paymentRes]. fold confirm.
  rewrite Hcb. cbn [fmap option_fmap option_map].
  destruct (on_confirmPaymentIntent env confirm) as [[]|e]; new_events.
  - fold completed. destruct (cb completed) as [[]|e]; new_events; [reflexivity|].
    destruct (error_callback env); cbn [fmap option_fmap option_map]; new_events; reflexivity.
  - destruct (error_callback env); cbn [fmap option_fmap option_map]; new_events; reflexivity.
Qed.

(** C3 at work. *)
Lemma C3_witness_payment_scenario :
  events_of (PaymentFlows.submit
               (flowsOptions (checkout (Ok None) returns_normally 1999) payment))
    (mkWorld tt [])
  = [ ElementsSubmit (Ok None);
      ApiGetPayment (Ok sample_payment);
      StripeConfirmPayment sample_payment (Ok {| intent_id := "pi_1" |});
      ApiConfirmPaymentIntent
        {| cpi_paymentIntentId := "pi_1"; cpi_paymentReference := "pr_1" |} (Ok tt);
      OnComplete
        {| isSuccess := true; result_paymentReference := Some "pr_1";
           paymentIntent := "pi_1"; result_orderId := None; result_orderNumber := None |}
        (Ok tt) ].
Proof.
  exact (C3_payment_mode_scenario (checkout (Ok None) returns_normally 1999)
           (mkWorld tt []) returns_normally eq_refl eq_refl eq_refl eq_refl).
Defined.

(** Splitting a concrete trace before its last two events. *)
Ltac split_before :=
  first [ exists []; split; [reflexivity|]
        | eexists [_]; split; [reflexivity|]
        | eexists [_; _]; split; [reflexivity|]
        | eexists [_; _; _]; split; [reflexivity|]
        | eexists [_; _; _; _]; split; [reflexivity|]
        | eexists [_; _; _; _; _]; split; [reflexivity|] ].

(** The failed step is the last but one event, the error callback the last,
    and nothing before them failed. *)
Ltac routed_here :=
  split_before; split; [reflexivity|];
  let ev' := fresh "ev'" in
  let Hin' := fresh "Hin'" in
  cbn [In]; intros ev' Hin';
  repeat (destruct Hin' as [<-|Hin']; [reflexivity|]);
  contradiction.

(** C6. When the provider's input-submission step reports an error, submit
    stops there: no backend call, and the error callback receives that
    error.  In general an error raised at any step is handed to the error
    callback, once, right after the step that raised it, and nothing runs
    after; no collaborator is called twice. *)
Theorem C6_errors_routed_once_no_retry
    {S : Type} (env : Surroundings) (mode : PaymentMode) (w : World S)
    (f : exn -> result unit) :
  error_callback env = Some f ->
  let run := PaymentFlows.submit (flowsOptions env mode) in
  (forall e, on_elements_submit env = Ok (Some e) ->
     run w = (f e, mkWorld (store w)
                     (trace w ++ [ElementsSubmit (Ok (Some e)); OnError e (f e)])) /\
     count is_backend_call (events_of run w) = 0%nat) /\
  (forall ev e, In ev (events_of run w) -> raised ev = Some e ->
     exists before,
       events_of run w = before ++ [ev; OnError e (f e)] /\
       count is_error_callback before = 0%nat /\
       forall ev', In ev' before -> raised ev' = None) /\
  NoDup (omap callee (events_of run w)) /\
  (count is_error_callback (events_of run w) <= 1)%nat.
Proof.
  intros Hf run. subst run. destruct w as [s t].
  split; [|split; [|split]].
  - intros e He. unfold_flows. split; new_events; rewrite He; new_events;
      rewrite Hf; cbn [fmap option_fmap option_map]; new_events; reflexivity.
  - intros ev e. unfold_flows. new_events. rewrite Hf.
    destruct mode; answers env;
      cbn [In]; intros Hin Hraised;
      repeat (destruct Hin as [<-|Hin];
              [cbn in Hraised;
               first [ discriminate
                     | injection Hraised as <-; routed_here ]|]);
      contradiction.
  - unfold_flows. new_events. rewrite Hf.
    destruct mode; answers env; cbn;
      apply (bool_decide_unpack _); vm_compute; exact I.
  - unfold_flows. new_events. rewrite Hf.
    destruct mode; answers env; cbn; lia.
Qed.

(** C6 at work: the provider rejects the card input. *)
Lemma C6_witness_declined_card :
  let run := PaymentFlows.submit
               (flowsOptions (checkout (Ok (Some card_declined)) returns_normally 1999)
                  payment) in
  let w := mkWorld tt [] in
  (run w = (Ok tt, mkWorld tt [ElementsSubmit (Ok (Some card_declined));
                               OnError card_declined (Ok tt)]) /\
   count is_backend_call (events_of run w) = 0%nat) /\
  (exists before,
     events_of run w
       = before ++ [ElementsSubmit (Ok (Some card_declined)); OnError card_declined (Ok tt)] /\
     count is_error_callback before = 0%nat /\
     forall ev', In ev' before -> raised ev' = None) /\
  NoDup (omap callee (events_of run w)) /\
  (count is_error_callback (events_of run w) <= 1)%nat.
Proof.
  cbv zeta.
  destruct (C6_errors_routed_once_no_retry
              (checkout (Ok (Some card_declined)) returns_normally 1999) payment
              (mkWorld tt []) (fun _ => Ok tt) eq_refl)
    as (Hvalidation & Hrouted & Hnodup & Honce).
  split; [exact (Hvalidation card_declined eq_refl)|].
  split; [|split; [exact Hnodup|exact Honce]].
  apply (Hrouted (ElementsSubmit (Ok (Some card_declined))) card_declined).
  - vm_compute. left. reflexivity.
  - reflexivity.
Defined.

(** C2, as stated, fails: when the completion callback throws, its error is
    caught by the same top-level boundary and handed to the error callback,
    so one submission invokes both callbacks. *)
Lemma C2_counterexample_completion_callback_throws :
  let evs := events_of (PaymentFlows.submit (flowsOptions (checkout (Ok None) throws 1999) payment))
               (mkWorld tt []) in
  count is_completion evs = 1%nat /\
  count is_error_callback evs = 1%nat /\
  ~ exactly_one_callback evs.
Proof.
  cbv zeta. unfold exactly_one_callback. vm_compute. repeat split. discriminate.
Qed.

(** C2, amended. A single submit makes backend calls that are an initial
    part of its mode's sequence (none when input submission fails) and
    invokes each callback at most once, as does the alternative-wallet
    settlement path for the callbacks; when both callbacks are
    supplied and the completion callback returns normally, exactly one of
    the two is invoked, the completion callback only after the whole
    sequence of the mode ran. *)
Theorem C2_one_callback_when_completion_returns {S : Type} :
  (forall (env : Surroundings) (mode : PaymentMode) (w : World S) cb f,
     completion_callback env = Some cb ->
     error_callback env = Some f ->
     (forall res, cb res = Ok tt) ->
     let evs := events_of (PaymentFlows.submit (flowsOptions env mode)) w in
     exactly_one_callback evs /\
     (count is_completion evs = 1%nat -> omap api_call evs = backend_sequence mode)) /\
  (forall (env : Surroundings) (mode : PaymentMode) (w : World S),
     let evs := events_of (PaymentFlows.submit (flowsOptions env mode)) w in
     omap api_call evs `prefix_of` backend_sequence mode /\
     (on_elements_submit env <> Ok None -> omap api_call evs = []) /\
     (count is_completion evs <= 1)%nat /\
     (count is_error_callback evs <= 1)%nat) /\
  (forall (env : Surroundings) (mode : PaymentMode) (w : World S) (paypalOrderId : string),
     let evs := events_of (PaymentFlows.createPayPalPayment (flowsOptions env mode)
                             (url_is_valid env) paypalOrderId) w in
     (count is_completion evs <= 1)%nat /\
     (count is_error_callback evs <= 1)%nat).
Proof.
  split; [|split].
  - intros env mode [s t] cb f Hcb Hf Hreturns. cbv zeta. unfold exactly_one_callback.
    unfold_flows. new_events. rewrite Hcb, Hf. cbn [fmap option_fmap option_map].
    destruct mode; repeat (next_answer; new_events);
      try match goal with
          | H : cb _ = Throw _ |- _ => rewrite Hreturns in H; discriminate
          end;
      cbn [app]; split; try reflexivity; cbn; intros; try discriminate; reflexivity.
  - intros env mode [s t]. cbv zeta. unfold_flows. new_events.
    destruct (error_callback env) as [f|]; cbn [fmap option_fmap option_map];
      destruct mode; answers env; cbn;
      (split; [eexists; reflexivity|split; [intros Hfailed|lia]]);
      first [reflexivity | contradiction Hfailed; congruence].
  - intros env mode [s t] id. cbv zeta. unfold_flows. new_events.
    destruct (error_callback env) as [f|]; cbn [fmap option_fmap option_map];
      answers env; cbn; lia.
Qed.

(** C2 at work: each mode, every collaborator succeeding. *)
Lemma C2_witness_each_mode_completes_once :
  let submit mode :=
    events_of (PaymentFlows.submit
                 (flowsOptions (checkout (Ok None) returns_normally 1999) mode))
      (mkWorld tt []) in
  exactly_one_callback (submit payment) /\
  omap api_call (submit payment) = backend_sequence payment /\
  exactly_one_callback (submit setup) /\
  omap api_call (submit setup) = backend_sequence setup /\
  exactly_one_callback (submit subscription) /\
  omap api_call (submit subscription) = backend_sequence subscription.
Proof.
  cbv zeta.
  pose proof (proj1 (C2_one_callback_when_completion_returns (S := unit))) as Hone.
  destruct (Hone (checkout (Ok None) returns_normally 1999) payment (mkWorld tt [])
              returns_normally (fun _ => Ok tt) eq_refl eq_refl (fun _ => eq_refl))
    as [Hpayment Hpayment_sequence].
  destruct (Hone (checkout (Ok None) returns_normally 1999) setup (mkWorld tt [])
              returns_normally (fun _ => Ok tt) eq_refl eq_refl (fun _ => eq_refl))
    as [Hsetup Hsetup_sequence].
  destruct (Hone (checkout (Ok None) returns_normally 1999) subscription (mkWorld tt [])
              returns_normally (fun _ => Ok tt) eq_refl eq_refl (fun _ => eq_refl))
    as [Hsubscription Hsubscription_sequence].
  split; [exact Hpayment|].
  split; [apply Hpayment_sequence; reflexivity|].
  split; [exact Hsetup|].
  split; [apply Hsetup_sequence; reflexivity|].
  split; [exact Hsubscription|].
  apply Hsubscription_sequence; reflexivity.
Defined.

(** ** The payment element component *)

Section KeepsStore.
Context {S : Type}.

Lemma keeps_ret {A} (a : A) : keeps_store (ret (S := S) a).
Proof. intros w. reflexivity. Qed.

Lemma keeps_throw {A} (e : exn) : keeps_store (throw (S := S) (A := A) e).
Proof. intros w. reflexivity. Qed.

Lemma keeps_emit (ev : Event) : keeps_store (emit (S := S) ev).
Proof. intros w. reflexivity. Qed.

Lemma keeps_log lvl msg : keeps_store (log (S := S) lvl msg).
Proof. intros w. reflexivity. Qed.

Lemma keeps_ask {A} (r : result A) ev : keeps_store (ask (S := S) r ev).
Proof. intros w. reflexivity. Qed.

Lemma keeps_get_store : keeps_store (get_store (S := S)).
Proof. intros w. reflexivity. Qed.

Lemma keeps_bind {A B} (m : M S A) (k : A -> M S B) :
  keeps_store m -> (forall a, keeps_store (k a)) -> keeps_store (bind m k).
Proof.
  intros Hm Hk w. unfold bind. specialize (Hm w).
  destruct (m w) as [[a|e] w']; cbn [snd] in *; [|exact Hm].
  rewrite Hk. exact Hm.
Qed.

Lemma keeps_try_catch {A} (m : M S A) (h : exn -> M S A) :
  keeps_store m -> (forall e, keeps_store (h e)) -> keeps_store (try_catch m h).
Proof.
  intros Hm Hh w. unfold try_catch. specialize (Hm w).
  destruct (m w) as [[a|e] w']; cbn [snd] in *; [exact Hm|].
  rewrite Hh. exact Hm.
Qed.
End KeepsStore.

(** Walks a computation, with [known] for the calls already shown to keep
    the store. *)
Ltac keeps_using known :=
  repeat first
    [ known
    | apply keeps_ret | apply keeps_throw | apply keeps_emit | apply keeps_log
    | apply keeps_ask | apply keeps_get_store
    | apply keeps_bind; [|intros ?] | apply keeps_try_catch; [|intros ?]
    | match goal with
      | |- keeps_store (match ?x with _ => _ end) => destruct x
      | |- keeps_store (if ?x then _ else _) => destruct x
      end ].

Ltac keeps := keeps_using fail.

Section ComponentFacts.
Variable env : Surroundings.
Variable mode : PaymentMode.

Lemma keeps_flows_submit {S} :
  keeps_store (PaymentFlows.submit (S := S) (flowsOptions env mode)).
Proof.
  unfold_flows. destruct (completion_callback env), (error_callback env), mode;
    cbn [fmap option_fmap option_map]; keeps.
Qed.

Lemma keeps_createPayPalPayment {S} id :
  keeps_store (PaymentFlows.createPayPalPayment (S := S) (flowsOptions env mode)
                 (url_is_valid env) id).
Proof.
  unfold_flows. destruct (completion_callback env), (error_callback env);
    cbn [fmap option_fmap option_map]; keeps.
Qed.

Lemma keeps_onError err : keeps_store (PE.onError env err).
Proof.
  unfold PE.onError, baseOptions_onError.
  destruct (error_callback env); cbn [fmap option_fmap option_map]; keeps.
Qed.

Lemma keeps_createOrder config : keeps_store (PE.createOrder env config).
Proof. unfold PE.createOrder. keeps_using ltac:(apply keeps_onError). Qed.

Lemma keeps_onApprove id : keeps_store (PE.onApprove env mode id).
Proof.
  unfold PE.onApprove.
  keeps_using ltac:(first [apply keeps_createPayPalPayment | apply keeps_onError]).
Qed.

Lemma keeps_submit : keeps_store (PE.submit env mode).
Proof. unfold PE.submit. keeps_using ltac:(apply keeps_flows_submit). Qed.

(** Only the two selection handlers change the component. *)
Lemma dispatch_store (ev : PE.UiEvent) (w : World PE.Component) :
  store (PE.dispatch env mode ev w).2 =
  match ev with
  | PE.PayPalOptionClick => PE.selectPayPal (store w)
  | PE.StripeElementChange | PE.StripeContainerClick =>
      if PE.isPayPalSelected (store w) then PE.deselectPayPal (store w) else store w
  | _ => store w
  end.
Proof.
  destruct ev; cbn [PE.dispatch].
  - reflexivity.
  - unfold PE.deselect_if_selected. unfold_monad. destruct w as [c t]. cbn.
    destruct (PE.isPayPalSelected c); reflexivity.
  - unfold PE.deselect_if_selected. unfold_monad. destruct w as [c t]. cbn.
    destruct (PE.isPayPalSelected c); reflexivity.
  - assert (H : keeps_store (PE.dispatch env mode PE.PayPalCreateOrder)).
    { cbn [PE.dispatch]. keeps_using ltac:(apply keeps_createOrder). }
    apply H.
  - apply keeps_onApprove.
  - assert (H : keeps_store (PE.onPayPalError env err)).
    { unfold PE.onPayPalError. keeps_using ltac:(apply keeps_onError). }
    apply H.
  - reflexivity.
  - apply keeps_submit.
Qed.

Ltac unfold_component :=
  cbv [bind try_catch call ask emit log ret throw deref get_store modify_store
       store trace fst snd negb andb defined
       PE.isPayPalSelected PE.paypalMounted PE.paypalConfig PE.document
       PE.paypalOptionListener PE.stripeListeners PE.paypalButtons
       PE.set_isPayPalSelected PE.set_paypalMounted PE.set_paypalConfig
       PE.set_document PE.set_paypalOptionListener PE.set_stripeListeners
       PE.set_paypalButtons PE.appendElement PE.with_element PE.new_component
       PE.addCustomStyles].

Lemma is_Some_alter (f : PE.Element -> PE.Element) (i j : string)
    (d : gmap string PE.Element) :
  is_Some (alter f i d !! j) <-> is_Some (d !! j).
Proof.
  destruct (decide (i = j)) as [->|Hne].
  - rewrite lookup_alter_eq, fmap_is_Some. reflexivity.
  - rewrite lookup_alter_ne by exact Hne. reflexivity.
Qed.

Lemma mount_invariant page selector r w :
  PE.mount env selector (mkWorld (PE.new_component page) []) = (r, w) ->
  mounted_invariant env (store w).
Proof.
  unfold PE.mount, PE.initializePayPal, PE.renderPayPalButton. unfold_monad.
  destruct (page_matches env selector); unfold_component.
  2: { intros [= <- <-]. repeat split; cbn; intros; discriminate. }
  destruct (on_getConfig env) as [cfg|e] eqn:Hcfg; unfold_component;
    [destruct (truthy (cfg ≫= clientId)) eqn:Havail; unfold_component;
     [destruct cfg as [cfg|]; [|discriminate Havail]; unfold_component|]|];
    repeat (next_answer; unfold_component).
  all: intros [= <- <-]; unfold mounted_invariant; unfold_component;
    repeat split; intros; try discriminate; simplify_eq;
    rewrite ?lookup_insert_is_Some'; auto 10.
Qed.

Lemma select_invariant (c : PE.Component) :
  mounted_invariant env c ->
  PE.paypalOptionListener c = true ->
  mounted_invariant env (PE.selectPayPal c).
Proof.
  intros (Hs & Ho & Hsel & Hb) Hl. unfold mounted_invariant, PE.selectPayPal.
  destruct c. unfold_component. cbn in *.
  rewrite !is_Some_alter. auto.
Qed.

Lemma deselect_invariant (c : PE.Component) :
  mounted_invariant env c -> mounted_invariant env (PE.deselectPayPal c).
Proof.
  intros (Hs & Ho & Hsel & Hb). unfold mounted_invariant, PE.deselectPayPal.
  destruct c. unfold_component. cbn in *.
  rewrite !is_Some_alter. repeat split; auto; try apply Ho; auto; discriminate.
Qed.

Lemma reachable_invariant (w : World PE.Component) :
  PE.reachable env mode w -> mounted_invariant env (store w).
Proof.
  induction 1 as [page selector r w Hmount | ev w r w' Hreach IH Hlisten Hstep].
  - eapply mount_invariant; eassumption.
  - assert (Hstore := dispatch_store ev w). rewrite Hstep in Hstore. cbn [snd] in Hstore.
    rewrite Hstore. destruct ev; try exact IH.
    + apply select_invariant; assumption.
    + destruct (PE.isPayPalSelected (store w)); [apply deselect_invariant|]; exact IH.
    + destruct (PE.isPayPalSelected (store w)); [apply deselect_invariant|]; exact IH.
Qed.

(** C8, amended. When the provider reports cancellation, the handler only
    logs: no backend call, no callback, and the component (the selected
    method and the document) is left as it was. *)
Theorem C8_cancel_is_silent_and_keeps_selection (w : World PE.Component) :
  let cancel := PE.dispatch env mode PE.PayPalCancel in
  cancel w =
    (Ok tt, mkWorld (store w)
              (trace w ++ [Log console_log "PayPal payment cancelled by user"])) /\
  count is_backend_call (events_of cancel w) = 0%nat /\
  count is_callback (events_of cancel w) = 0%nat /\
  PE.activeMethod (store (cancel w).2) = PE.activeMethod (store w).
Proof.
  cbv zeta. cbn [PE.dispatch]. unfold PE.onCancel.
  repeat split; new_events; reflexivity.
Qed.

(** C9. From any state where the alternative wallet is the active method,
    a change event on the primary element or a click on its container is
    listened to and returns the active method to the primary widget,
    restores the widget's opacity and pointer events, hides the wallet's
    button wrapper and unmarks the wallet option. *)
Theorem C9_primary_interaction_deselects_wallet
    (w : World PE.Component) (ev : PE.UiEvent) :
  PE.reachable env mode w ->
  PE.activeMethod (store w) = PE.alternative_wallet ->
  ev = PE.StripeElementChange \/ ev = PE.StripeContainerClick ->
  let w' := (PE.dispatch env mode ev w).2 in
  PE.listening (store w) ev = true /\
  PE.activeMethod (store w') = PE.primary_widget /\
  (exists el, PE.document (store w') !! PE.stripe_container_id = Some el /\
              PE.opacity el = "1" /\ PE.pointerEvents el = "auto") /\
  (exists el, PE.document (store w') !! PE.paypal_wrapper_id = Some el /\
              PE.display el = "none") /\
  (exists el, PE.document (store w') !! PE.paypal_option_id = Some el /\
              ~ In "selected" (PE.classList el)) /\
  trace w' = trace w.
Proof.
  intros Hreach Hactive Hev w'.
  destruct (reachable_invariant w Hreach) as (Hs & Ho & Hsel & _).
  assert (Hselected : PE.isPayPalSelected (store w) = true).
  { unfold PE.activeMethod in Hactive.
    destruct (PE.isPayPalSelected (store w)); [reflexivity|discriminate]. }
  destruct (Ho (Hsel Hselected)) as (Hlisten & [option Hoption] & [wrapper Hwrapper]).
  destruct (Hs Hlisten) as [container Hcontainer].
  assert (Hrun : PE.dispatch env mode ev w
                 = (Ok tt, mkWorld (PE.deselectPayPal (store w)) (trace w))).
  { destruct Hev as [-> | ->]; cbn [PE.dispatch]; unfold PE.deselect_if_selected;
      unfold_monad; destruct w as [c t]; cbn [store trace] in *;
      rewrite Hselected; reflexivity. }
  subst w'. rewrite Hrun. cbn [snd store trace].
  split; [destruct Hev as [-> | ->]; exact Hlisten|].
  split; [reflexivity|].
  unfold PE.deselectPayPal. destruct (store w) as [sel mnt cfg doc ol sl btn].
  unfold_component. cbn [PE.document] in Hoption, Hwrapper, Hcontainer.
  split; [|split; [|split; [|reflexivity]]].
  - eexists. rewrite lookup_alter_eq, !lookup_alter_ne, Hcontainer by done.
    repeat split; reflexivity.
  - eexists. rewrite lookup_alter_ne, lookup_alter_eq, lookup_alter_ne, Hwrapper by done.
    repeat split; reflexivity.
  - eexists. rewrite !lookup_alter_ne, lookup_alter_eq, Hoption by done.
    split; [reflexivity|]. cbn [PE.classList PE.classList_remove].
    rewrite <- list_elem_of_In, list_elem_of_filter. tauto.
Qed.

Lemma nonpositive_total_is_rejected (total : Z) :
  total <= 0 -> PE.parseFloat_le_zero (PE.toFixed2 total) = true.
Proof.
  intros Hle. destruct (Z.eq_dec total 0) as [->|Hne]; [reflexivity|].
  unfold PE.toFixed2. replace (total <? 0) with true by (symmetry; apply Z.ltb_lt; lia).
  reflexivity.
Qed.

(** C10. On a mounted widget whose fetched PayPal config carries an amount
    of zero or less, the button's createOrder callback creates no provider
    order: it raises the error saying the cart total must be greater than
    zero and hands that error to the error callback; the provider's
    order-creation call is never made. *)
Theorem C10_nonpositive_total_creates_no_order
    (w : World PE.Component) (config : PayPalConfig) (f : exn -> result unit) :
  PE.reachable env mode w ->
  PE.listening (store w) PE.PayPalCreateOrder = true ->
  on_getConfig env = Ok (Some config) ->
  amount config <= 0 ->
  error_callback env = Some f ->
  let err := Error "Cart total must be greater than zero" in
  PE.dispatch env mode PE.PayPalCreateOrder w =
    (Throw (match f err with Ok _ => err | Throw thrown_by_callback => thrown_by_callback end),
     mkWorld (store w)
       (trace w ++
        [ Log console_error "Cart total is zero or negative, cannot create PayPal order";
          Log console_error "Error creating PayPal order:";
          OnError err (f err) ])) /\
  count is_order_create (events_of (PE.dispatch env mode PE.PayPalCreateOrder) w) = 0%nat.
Proof.
  intros Hreach Hlisten Hcfg Hle Hf err.
  destruct (reachable_invariant w Hreach) as (_ & _ & _ & Hbuttons).
  cbn [PE.listening] in Hlisten.
  destruct (PE.paypalButtons (store w)) as [captured|] eqn:Hcaptured; [|discriminate].
  specialize (Hbuttons captured eq_refl). rewrite Hcfg in Hbuttons.
  injection Hbuttons as <-.
  assert (Hrun : PE.dispatch env mode PE.PayPalCreateOrder w =
    (Throw (match f err with Ok _ => err | Throw thrown_by_callback => thrown_by_callback end),
     mkWorld (store w)
       (trace w ++
        [ Log console_error "Cart total is zero or negative, cannot create PayPal order";
          Log console_error "Error creating PayPal order:";
          OnError err (f err) ]))).
  { cbn [PE.dispatch]. unfold PE.createOrder, PE.onError, baseOptions_onError.
    rewrite Hf. cbn [fmap option_fmap option_map].
    unfold_monad. destruct w as [c t]. cbn [store trace] in *. rewrite Hcaptured.
    rewrite (nonpositive_total_is_rejected _ Hle). unfold_monad. fold err.
    destruct (f err) as [[]|e']; rewrite <- !app_assoc; reflexivity. }
  split; [exact Hrun|].
  unfold events_of. rewrite Hrun. cbn [snd trace]. rewrite drop_app_length. reflexivity.
Qed.

End ComponentFacts.

(** A mounted component with the PayPal option clicked. *)
Lemma wallet_selected_reachable (completion : PaymentResult -> result unit) :
  PE.reachable (checkout (Ok None) completion 1999) payment
    (wallet_selected (checkout (Ok None) completion 1999) payment).
Proof.
  eapply PE.reach_dispatch with (ev := PE.PayPalOptionClick).
  - eapply PE.reach_mount with (page := ∅) (selector := "#payment").
    apply surjective_pairing.
  - reflexivity.
  - apply surjective_pairing.
Qed.

(** C8, as stated, fails: after the provider's cancel notification the
    alternative wallet is still the active method and its button wrapper is
    still shown. *)
Lemma C8_counterexample_cancel_keeps_wallet_selected :
  let env := checkout (Ok None) returns_normally 1999 in
  let selected := wallet_selected env payment in
  let cancelled := (PE.dispatch env payment PE.PayPalCancel selected).2 in
  PE.reachable env payment selected /\
  PE.listening (store selected) PE.PayPalCancel = true /\
  PE.activeMethod (store selected) = PE.alternative_wallet /\
  PE.activeMethod (store cancelled) = PE.alternative_wallet /\
  PE.activeMethod (store cancelled) <> PE.primary_widget /\
  PE.display <$> (PE.document (store cancelled) !! PE.paypal_wrapper_id) = Some "block".
Proof.
  cbv zeta. split; [apply wallet_selected_reachable|].
  vm_compute. repeat split. discriminate.
Qed.

(** C9 at work: the wallet is selected, then the card element changes. *)
Lemma C9_witness_change_after_selecting_wallet :
  let env := checkout (Ok None) returns_normally 1999 in
  let w := wallet_selected env payment in
  let w' := (PE.dispatch env payment PE.StripeElementChange w).2 in
  PE.activeMethod (store w) = PE.alternative_wallet /\
  PE.listening (store w) PE.StripeElementChange = true /\
  PE.activeMethod (store w') = PE.primary_widget /\
  (exists el, PE.document (store w') !! PE.stripe_container_id = Some el /\
              PE.opacity el = "1" /\ PE.pointerEvents el = "auto") /\
  (exists el, PE.document (store w') !! PE.paypal_wrapper_id = Some el /\
              PE.display el = "none") /\
  (exists el, PE.document (store w') !! PE.paypal_option_id = Some el /\
              ~ In "selected" (PE.classList el)) /\
  trace w' = trace w.
Proof.
  cbv zeta.
  assert (Hactive : PE.activeMethod
                      (store (wallet_selected (checkout (Ok None) returns_normally 1999)
                                payment)) = PE.alternative_wallet)
    by (vm_compute; reflexivity).
  split; [exact Hactive|].
  exact (C9_primary_interaction_deselects_wallet
           (checkout (Ok None) returns_normally 1999) payment _ PE.StripeElementChange
           (wallet_selected_reachable returns_normally) Hactive (or_introl eq_refl)).
Defined.

(** C10 at work: a cart whose total is zero. *)
Lemma C10_witness_empty_cart :
  let env := checkout (Ok None) returns_normally 0 in
  let w := mounted env in
  let err := Error "Cart total must be greater than zero" in
  PE.listening (store w) PE.PayPalCreateOrder = true /\
  PE.dispatch env payment PE.PayPalCreateOrder w =
    (Throw err,
     mkWorld (store w)
       (trace w ++
        [ Log console_error "Cart total is zero or negative, cannot create PayPal order";
          Log console_error "Error creating PayPal order:";
          OnError err (Ok tt) ])) /\
  count is_order_create (events_of (PE.dispatch env payment PE.PayPalCreateOrder) w) = 0%nat.
Proof.
  cbv zeta.
  assert (Hlisten : PE.listening (store (mounted (checkout (Ok None) returns_normally 0)))
                      PE.PayPalCreateOrder = true)
    by (vm_compute; reflexivity).
  split; [exact Hlisten|].
  refine (C10_nonpositive_total_creates_no_order
            (checkout (Ok None) returns_normally 0) payment _
            {| clientId := Some "paypal-client"; currency := "USD"; amount := 0;
               environment := "sandbox" |}
            (fun _ => Ok tt) _ Hlisten eq_refl _ eq_refl).
  - eapply PE.reach_mount with (page := ∅) (selector := "#payment").
    apply surjective_pairing.
  - cbn [amount]. lia.
Defined.

(** ** The model at work *)

Example toFixed2_values :
  PE.toFixed2 1999 = "19.99" /\ PE.toFixed2 5 = "0.05" /\
  PE.toFixed2 0 = "0.00" /\ PE.toFixed2 (-150) = "-1.50".
Proof. repeat split; reflexivity. Qed.

Example detailedMessage_joins_sub_errors :
  OrderClient.detailedMessage ReferenceBackend.concurrentModification
  = "Version mismatch: Object has a different version than expected".
Proof. reflexivity. Qed.

(** With a positive total the button's createOrder callback reaches the
    provider, with the total in units. *)
Example positive_total_reaches_the_provider :
  let env := checkout (Ok None) returns_normally 1999 in
  events_of (PE.dispatch env payment PE.PayPalCreateOrder) (mounted env)
  = [PayPalOrderCreate
       {| intent := "CAPTURE";
          purchase_units :=
            [ {| reference_id := "ORDER"; description := "Order Payment";
                 amount_currency_code := "USD"; amount_value := "19.99" |} ] |}
       (Ok "EC-1")].
Proof. vm_compute. reflexivity. Qed.

(** The alternative flow approved with order id EC-1 for a cart of 19.99
    USD: the payment created carries one authorization and one charge, both
    for EC-1. *)
Example settlement_records_authorization_and_charge :
  let usd := {| currencyCode := "USD"; centAmount := 1999 |} in
  transactions (PayPalPaymentService.paymentDraft sample_context sample_cart usd "EC-1")
  = [ {| tx_type := AUTHORIZATION; tx_amount := usd;
         tx_state := PaymentOutcome_AUTHORIZED; interactionId := "EC-1" |};
      {| tx_type := CHARGE; tx_amount := usd;
         tx_state := StateLiteral "Success"; interactionId := "EC-1" |} ].
Proof. reflexivity. Qed.

(** A settlement whose return URL [new URL] rejects (a relative path): the
    completion callback has already been invoked when the error reaches the
    catch block, so the error callback is invoked as well. *)
Example relative_return_url_reaches_both_callbacks :
  let relative := fun _ : string =>
    Ok {| orderId := "EC-1"; status := "COMPLETED"; paymentReference := Some "payment-0";
          ctOrderId := Some "order-0"; capture_orderNumber := None;
          merchantReturnUrl := Some "/thanks" |} in
  let env := with_capture relative (checkout (Ok None) returns_normally 1999) in
  List.filter is_callback
    (events_of (PaymentFlows.createPayPalPayment (flowsOptions env payment)
                  (url_is_valid env) "EC-1") (mkWorld tt []))
  = [ OnComplete {| isSuccess := true; result_paymentReference := Some "payment-0";
                    paymentIntent := "EC-1"; result_orderId := Some "order-0";
                    result_orderNumber := None |} (Ok tt);
      OnError (Error "Invalid URL") (Ok tt) ].
Proof. vm_compute. reflexivity. Qed.

(** * Further properties of the processor *)

(** ** The order client's failures *)

Lemma js_or_lit_nonempty (a : option string) (b : string) :
  b <> "" -> js_or_lit a b <> "".
Proof.
  intros Hb. destruct a as [s|]; cbn; [|exact Hb].
  destruct (String.eqb s "") eqn:E; [exact Hb|].
  intros ->. discriminate.
Qed.

Lemma append_nonempty (a b : string) : a <> "" -> a +:+ b <> "".
Proof. destruct a; [congruence|]. intros _. discriminate. Qed.

Lemma detailedMessage_nonempty (e : exn) : OrderClient.detailedMessage e <> "".
Proof.
  assert (H : OrderClient.errorMessage e <> "")
    by (apply js_or_lit_nonempty; discriminate).
  unfold OrderClient.detailedMessage.
  destruct (OrderClient.errorDetails e); [exact H|].
  apply append_nonempty. exact H.
Qed.

(** X1. A failed createOrderFromCart always throws a plain Error whose
    message is "Failed to create order from cart: " followed by a non-empty
    description (never a bare backend error), logs the failure once as its
    last event, and has no successful order post behind it: the order was
    posted at most once and that post was rejected. *)
Theorem createOrderFromCart_failure_is_wrapped_and_logged
    {S : Type} (backend : Backend S) (cart : Cart) (w w' : World S) (e : exn) :
  OrderClient.createOrderFromCart backend cart w = (Throw e, w') ->
  let evs := events_of (OrderClient.createOrderFromCart backend cart) w in
  (exists why, why <> "" /\
     e = Error ("Failed to create order from cart: " +:+ why)) /\
  last evs = Some (Log console_error "Failed to create order from cart:") /\
  count is_log evs = 1%nat /\
  (count is_order_post evs <= 1)%nat /\
  (forall d r, In (CtPostOrder d r) evs -> exists cause, r = Throw cause).
Proof.
  intros Hrun evs.
  assert (Hevs : evs = drop (length (trace w)) (trace w')).
  { subst evs. unfold events_of. rewrite Hrun. reflexivity. }
  clearbody evs. subst evs.
  rewrite createOrderFromCart_run in Hrun. cbv zeta in Hrun.
  destruct (ct_getCart backend _ (store w)) as [[[latest|]|e0] s1].
  1: destruct (ct_postOrder backend _ s1) as [[o|e1] s2]; [discriminate|].
  all: injection Hrun as <- <-; cbn [trace]; rewrite drop_app_length.
  all: split; [eexists; split; [apply detailedMessage_nonempty|reflexivity]|].
  all: split; [reflexivity|]; split; [reflexivity|]; split; [cbn; lia|].
  all: intros d r Hin; cbn [In] in Hin.
  all: repeat (destruct Hin as [Heq|Hin]; [try discriminate|]); try contradiction.
  injection Heq as _ <-. eexists; reflexivity.
Qed.

Lemma createOrderFromCart_failure_witness :
  let run := OrderClient.createOrderFromCart ReferenceBackend.backend unknown_cart in
  let w := {| store := sample_store; trace := [] |} in
  let e := orderFailure (ReferenceBackend.notFound "Cart") in
  run w = (Throw e, (run w).2) /\
  (exists why, why <> "" /\ e = Error ("Failed to create order from cart: " +:+ why)) /\
  count is_log (events_of run w) = 1%nat.
Proof.
  cbv zeta.
  assert (Hrun : OrderClient.createOrderFromCart ReferenceBackend.backend unknown_cart
                   {| store := sample_store; trace := [] |}
                 = (Throw (orderFailure (ReferenceBackend.notFound "Cart")),
                    (OrderClient.createOrderFromCart ReferenceBackend.backend unknown_cart
                       {| store := sample_store; trace := [] |}).2))
    by (vm_compute; reflexivity).
  split; [exact Hrun|].
  destruct (createOrderFromCart_failure_is_wrapped_and_logged
              ReferenceBackend.backend unknown_cart _ _ _ Hrun) as (Hwhy & _ & Hlog & _).
  split; [exact Hwhy | exact Hlog].
Defined.

(** ** Failures of the settlement service *)

(** X2. capturePayPalOrder stops at the first backend call that is
    rejected: no backend call follows it (the payment record is not undone
    when attaching it or creating the order fails), and the run throws.
    Every failing run ends with the one error log line and has no
    successful order post behind it. *)
Theorem capturePayPalOrder_stops_at_first_rejection
    {S : Type} (backend : Backend S) (ctx : RequestContext) (config : Config)
    (paypalOrderId : string) (w : World S) :
  let run := PayPalPaymentService.capturePayPalOrder backend ctx config paypalOrderId in
  let evs := events_of run w in
  stops_at_rejection evs = true /\
  (existsb ct_rejected evs = true -> exists e, (run w).1 = Throw e) /\
  (forall e, (run w).1 = Throw e ->
     last evs = Some (Log error "Error recording PayPal payment in commercetools") /\
     count is_log evs <= 3 /\
     forall d o, ~ In (CtPostOrder d (Ok o)) evs)%nat.
Proof.
  destruct w as [s t]. cbv zeta.
  run_service.
  all: split; [reflexivity|].
  all: split; [first [discriminate | intros _; eexists; reflexivity]|].
  all: intros err Herr; first [discriminate Herr | idtac].
  all: split; [reflexivity|]; split; [cbn; lia|].
  all: intros d o' Hin; cbn [In] in Hin.
  all: repeat (destruct Hin as [Heq|Hin]; [discriminate|]); contradiction.
Qed.

Lemma capturePayPalOrder_rejection_witness :
  let run := PayPalPaymentService.capturePayPalOrder ReferenceBackend.backend
               context_without_cart sample_config "EC-1" in
  let w := {| store := sample_store; trace := [] |} in
  existsb ct_rejected (events_of run w) = true /\
  (exists e, (run w).1 = Throw e) /\
  count is_backend_call (events_of run w) = 1%nat.
Proof.
  cbv zeta. split; [vm_compute; reflexivity|].
  split; [|vm_compute; reflexivity].
  apply (proj1 (proj2 (capturePayPalOrder_stops_at_first_rejection
                         ReferenceBackend.backend context_without_cart sample_config "EC-1"
                         {| store := sample_store; trace := [] |}))).
  vm_compute; reflexivity.
Defined.

(** ** The versions of the settlement service *)

(** X3. With a cart id in the context and a cart service that does not
    answer with an absent cart, the guarded capturePayPalOrder behaves as
    the service's: the same result or error, the same backend calls with
    the same arguments in the same order, and the same final store.  The
    guards only add log lines. *)
Theorem guarded_capture_agrees_with_service
    {S : Type} (backend : Backend S) (ctx : RequestContext) (config : Config)
    (paypalOrderId : string) (w : World S) :
  truthy (getCartIdFromContext ctx) = true ->
  (ct_getCart backend (getCartIdFromContext ctx) (store w)).1 <> Ok None ->
  let service := PayPalPaymentService.capturePayPalOrder backend ctx config paypalOrderId in
  let guarded :=
    PayPalPaymentServiceGuarded.capturePayPalOrder backend ctx config paypalOrderId in
  (guarded w).1 = (service w).1 /\
  store (guarded w).2 = store (service w).2 /\
  List.filter is_backend_call (events_of guarded w)
    = List.filter is_backend_call (events_of service w).
Proof.
  destruct w as [s t]. cbn [store]. intros Hid Hcart. cbv zeta.
  unfold events_of; unfold_service; unfold_monad. rewrite Hid. unfold_monad.
  destruct (ct_getCart backend _ s) as [[[c|]|e] s1] eqn:E1; unfold_monad;
    [| exfalso; apply Hcart; reflexivity |].
  all: repeat (backend_answer; unfold_monad).
  all: rewrite <- ?app_assoc, ?drop_app_length; cbn [app].
  all: repeat split; reflexivity.
Qed.

Lemma guarded_capture_agrees_witness :
  let service := PayPalPaymentService.capturePayPalOrder ReferenceBackend.backend
                   sample_context sample_config "EC-1" in
  let guarded := PayPalPaymentServiceGuarded.capturePayPalOrder ReferenceBackend.backend
                   sample_context sample_config "EC-1" in
  let w := {| store := sample_store; trace := [] |} in
  (guarded w).1 = Ok sample_capture /\
  (guarded w).1 = (service w).1 /\
  store (guarded w).2 = store (service w).2.
Proof.
  cbv zeta. split; [vm_compute; reflexivity|].
  destruct (guarded_capture_agrees_with_service ReferenceBackend.backend sample_context
              sample_config "EC-1" {| store := sample_store; trace := [] |})
    as (Hres & Hstore & _).
  - reflexivity.
  - vm_compute. discriminate.
  - split; [exact Hres | exact Hstore].
Defined.

(** X4. The first version of capturePayPalOrder and the current one make
    the same backend calls and leave the same store; they fail with the
    same error, and on success their answers differ only in the merchant
    return URL, which the first version does not send. *)
Theorem initial_capture_differs_only_in_return_url
    {S : Type} (backend : Backend S) (ctx : RequestContext) (config : Config)
    (paypalOrderId : string) (w : World S) :
  let service := PayPalPaymentService.capturePayPalOrder backend ctx config paypalOrderId in
  let initial := PayPalPaymentServiceInitial.capturePayPalOrder backend ctx paypalOrderId in
  (initial w).1 = match (service w).1 with
                  | Ok r => Ok (without_return_url r)
                  | Throw e => Throw e
                  end /\
  store (initial w).2 = store (service w).2 /\
  List.filter (fun e => negb (is_log e)) (events_of initial w)
    = List.filter (fun e => negb (is_log e)) (events_of service w) /\
  count is_log (events_of initial w) = count is_log (events_of service w).
Proof.
  destruct w as [s t]. cbv zeta.
  run_service.
  all: repeat split; reflexivity.
Qed.

(** ** The configuration query *)

(** X5. config() only reads: it calls getCart and then getPaymentAmount,
    writes nothing and logs nothing.  Its answer carries the client id and
    environment of the settings and the currency and cent amount the cart
    service planned for the cart it fetched; a rejection of either call
    reaches the caller unchanged. *)
Theorem config_reads_the_planned_amount
    {S : Type} (backend : Backend S) (ctx : RequestContext) (settings : Config)
    (w : World S) :
  let run := PayPalPaymentServiceConfig.config backend ctx settings in
  let evs := events_of run w in
  List.filter is_backend_write evs = [] /\
  count is_log evs = 0%nat /\
  (forall c, (run w).1 = Ok c ->
     clientId c = paypalClientId settings /\
     environment c = paypalEnvironment settings /\
     exists cart amt,
       evs = [CtGetCart (getCartIdFromContext ctx) (Ok cart);
              CtGetPaymentAmount cart (Ok amt)] /\
       currency c = currencyCode amt /\ amount c = centAmount amt) /\
  (forall e, (run w).1 = Throw e ->
     exists ev, last evs = Some ev /\ ct_rejected ev = true /\
       (ev = CtGetCart (getCartIdFromContext ctx) (Throw e) \/
        exists cart, ev = CtGetPaymentAmount cart (Throw e))).
Proof.
  destruct w as [s t]. cbv zeta.
  run_service.
  all: split; [reflexivity|]; split; [reflexivity|]; split.
  all: try (intros ? [= <-]).
  all: try (intros ? [=]; fail).
  all: try (cbn; split; [reflexivity|]; split; [reflexivity|];
            do 2 eexists; repeat split).
  all: eexists; split; [reflexivity|]; split; [reflexivity|].
  all: first [left; reflexivity | right; eexists; reflexivity].
Qed.

Lemma config_witness_sample_cart :
  let run := PayPalPaymentServiceConfig.config ReferenceBackend.backend sample_context
               sample_config in
  let w := {| store := sample_store; trace := [] |} in
  let c := {| clientId := Some "paypal-client"; currency := "USD"; amount := 1999;
              environment := "sandbox" |} in
  (run w).1 = Ok c /\
  exists cart amt,
    events_of run w = [CtGetCart (Some "cart-1") (Ok cart); CtGetPaymentAmount cart (Ok amt)] /\
    currency c = currencyCode amt /\ amount c = centAmount amt.
Proof.
  cbv zeta. split; [vm_compute; reflexivity|].
  destruct (config_reads_the_planned_amount ReferenceBackend.backend sample_context
              sample_config {| store := sample_store; trace := [] |})
    as (_ & _ & Hok & _).
  destruct (Hok _ eq_refl) as (_ & _ & Hamount). exact Hamount.
Defined.

(** ** The capture route *)

(** X6. The capture handler never rejects: whatever the service does, it
    sends one reply last and resolves with it.  The reply is 200 with the
    service's answer when the service returned, and otherwise 500 with a
    fixed body that names the order id and status ERROR and carries nothing
    of the error.  The handler itself leaves the store as the service left
    it. *)
Theorem capture_route_always_replies
    {S : Type} (service : string -> M S PayPalCaptureResponse) (orderId : string)
    (w : World S) :
  let run := PayPalPaymentRoute.capture service orderId in
  exists code reply,
    (run w).1 = Ok (code, reply) /\
    last (trace (run w).2) = Some (HttpReply code reply) /\
    store (run w).2 = store (service orderId w).2 /\
    match (service orderId w).1 with
    | Ok res => code = 200 /\ reply = res
    | Throw _ =>
        code = 500 /\
        reply = {| orderId := orderId; status := "ERROR"; paymentReference := None;
                   ctOrderId := None; capture_orderNumber := None;
                   merchantReturnUrl := None |}
    end.
Proof.
  cbv zeta. unfold PayPalPaymentRoute.capture. unfold_monad.
  destruct (service orderId w) as [[res|e] [s1 t1]]; unfold_monad.
  - exists 200, res. rewrite last_snoc. repeat split.
  - exists 500, (PayPalPaymentRoute.errorReply orderId).
    rewrite last_snoc. repeat split.
Qed.

(** ** The payment record *)

(** X7. Every payment capturePayPalOrder asks the backend to create has the
    provider order id as interface id, is planned for exactly the amount
    the cart service answered for the fetched cart (as are its two
    transactions), names a non-empty payment interface, and has at most one
    owner: the cart's customer when the cart has a non-empty customer id,
    otherwise the cart's non-empty anonymous id, otherwise none. *)
Theorem capturePayPalOrder_payment_record
    {S : Type} (backend : Backend S) (ctx : RequestContext) (config : Config)
    (paypalOrderId : string) (w : World S) (draft : PaymentDraft) (r : result Payment) :
  let run := PayPalPaymentService.capturePayPalOrder backend ctx config paypalOrderId in
  In (CtCreatePayment draft r) (events_of run w) ->
  interfaceId draft = paypalOrderId /\
  paymentInterface (paymentMethodInfo draft) <> "" /\
  (exists cart amt,
     In (CtGetCart (getCartIdFromContext ctx) (Ok (Some cart))) (events_of run w) /\
     In (CtGetPaymentAmount (Some cart) (Ok amt)) (events_of run w) /\
     amountPlanned draft = amt /\
     Forall (fun t => tx_amount t = amt /\ interactionId t = paypalOrderId)
       (transactions draft) /\
     match draft_customer draft, draft_anonymousId draft with
     | Some c, None => customer_id c <> "" /\ customerId cart = Some (customer_id c)
     | None, Some a => a <> "" /\ anonymousId cart = Some a /\
                       truthy (customerId cart) = false
     | None, None => truthy (customerId cart) = false /\
                     truthy (anonymousId cart) = false
     | Some _, Some _ => False
     end).
Proof.
  destruct w as [s t]. cbv zeta.
  run_service.
  all: intros Hin; cbn [In] in Hin.
  all: repeat (destruct Hin as [Heq|Hin]; [try discriminate Heq|]); try contradiction.
  all: injection Heq as <- <-.
  all: split; [reflexivity|]; split; [apply js_or_lit_nonempty; discriminate|].
  all: do 2 eexists; split; [left; reflexivity|]; split; [right; left; reflexivity|].
  all: split; [reflexivity|]; split; [repeat constructor|].
  all: cbn [PayPalPaymentService.paymentDraft draft_customer draft_anonymousId customer_id].
  all: destruct (customerId c) as [cid|]; cbn [truthy default];
    [destruct (String.eqb_spec cid ""); cbn [negb]|].
  all: try (destruct (anonymousId c) as [aid|]; cbn [truthy];
    [destruct (String.eqb_spec aid ""); cbn [negb]|]).
  all: repeat split; first [assumption | congruence].
Qed.

Lemma capturePayPalOrder_payment_record_witness :
  let run := PayPalPaymentService.capturePayPalOrder ReferenceBackend.backend
               sample_context sample_config "EC-1" in
  let w := {| store := sample_store; trace := [] |} in
  let draft := PayPalPaymentService.paymentDraft sample_context sample_cart
                 (totalPrice sample_cart) "EC-1" in
  let p := {| payment_id := "payment-0"; payment_draft := draft |} in
  In (CtCreatePayment draft (Ok p)) (events_of run w) /\
  interfaceId draft = "EC-1" /\
  paymentInterface (paymentMethodInfo draft) <> "".
Proof.
  cbv zeta.
  assert (Hin : In (CtCreatePayment
                      (PayPalPaymentService.paymentDraft sample_context sample_cart
                         (totalPrice sample_cart) "EC-1")
                      (Ok {| payment_id := "payment-0";
                             payment_draft :=
                               PayPalPaymentService.paymentDraft sample_context sample_cart
                                 (totalPrice sample_cart) "EC-1" |}))
                   (events_of (PayPalPaymentService.capturePayPalOrder
                                 ReferenceBackend.backend sample_context sample_config "EC-1")
                      {| store := sample_store; trace := [] |}))
    by (vm_compute; right; right; left; reflexivity).
  split; [exact Hin|].
  destruct (capturePayPalOrder_payment_record ReferenceBackend.backend sample_context
              sample_config "EC-1" _ _ _ Hin) as (Hid & Hif & _).
  split; [exact Hid | exact Hif].
Defined.

(** * Further properties of the enabler *)

(** ** What the completion callback is told *)

(** X8. In every payment mode, whenever submit invokes the completion
    callback, the payload reports success, no order, the payment reference
    of a confirm call the processor accepted in this run, and the id the
    provider's confirmation returned in this run.  That confirm call
    carried the provider's id, except in setup mode, where it carries
    none. *)
Theorem submit_completion_reports_the_confirmed_payment
    {S : Type} (env : Surroundings) (mode : PaymentMode) (w : World S)
    (res : PaymentResult) (r : result unit) :
  let evs := events_of (PaymentFlows.submit (flowsOptions env mode)) w in
  In (OnComplete res r) evs ->
  isSuccess res = true /\
  result_orderId res = None /\
  result_orderNumber res = None /\
  exists reference id confirm provider,
    result_paymentReference res = Some reference /\
    paymentIntent res = id /\
    In provider evs /\ provider_confirmation provider = Some id /\
    In confirm evs /\ confirmed_reference confirm = Some reference /\
    confirmed_intent confirm =
      Some (match mode with setup => None | _ => Some id end).
Proof.
  destruct w as [s t]. cbv zeta. unfold_flows. new_events.
  destruct (error_callback env) as [f|]; cbn [fmap option_fmap option_map];
    destruct mode; answers env.
  all: intros Hin; cbn [In] in Hin.
  all: repeat (destruct Hin as [Heq|Hin]; [try discriminate Heq|]); try contradiction.
  all: injection Heq as <- <-.
  all: split; [reflexivity|]; split; [reflexivity|]; split; [reflexivity|].
  all: do 4 eexists; split; [reflexivity|]; split; [reflexivity|].
  all: split; [right; right; left; reflexivity|]; split; [reflexivity|].
  all: first [ split; [do 3 right; left; reflexivity|]; split; reflexivity
             | split; [do 4 right; left; reflexivity|]; split; reflexivity ].
Qed.

Lemma submit_completion_witness_setup_mode :
  let evs := events_of (PaymentFlows.submit
                          (flowsOptions (checkout (Ok None) returns_normally 1999) setup))
               {| store := tt; trace := [] |} in
  let res := {| isSuccess := true; result_paymentReference := Some "pr_2";
                paymentIntent := "seti_1"; result_orderId := None;
                result_orderNumber := None |} in
  In (OnComplete res (Ok tt)) evs /\
  exists reference id confirm provider,
    result_paymentReference res = Some reference /\
    paymentIntent res = id /\
    In provider evs /\ provider_confirmation provider = Some id /\
    In confirm evs /\ confirmed_reference confirm = Some reference /\
    confirmed_intent confirm = Some None.
Proof.
  cbv zeta.
  assert (Hin : In (OnComplete
                      {| isSuccess := true; result_paymentReference := Some "pr_2";
                         paymentIntent := "seti_1"; result_orderId := None;
                         result_orderNumber := None |} (Ok tt))
                   (events_of (PaymentFlows.submit
                                 (flowsOptions (checkout (Ok None) returns_normally 1999)
                                    setup))
                      {| store := tt; trace := [] |}))
    by (vm_compute; do 5 right; left; reflexivity).
  split; [exact Hin|].
  destruct (submit_completion_reports_the_confirmed_payment _ setup _ _ _ Hin)
    as (_ & _ & _ & Hpayload).
  exact Hpayload.
Defined.

(** ** Leaving for the confirmation page *)

(** X9. createPayPalPayment navigates only when the processor's answer
    carries a non-empty return URL that parses: the navigation is the last
    event, there is only one, it goes to that URL with exactly the five
    search parameters paymentReference, orderId, orderNumber (each the
    empty string when absent), paymentMethod=paypal and status=completed in
    this order, the error callback was not invoked, and a completion
    callback that was supplied has returned normally before, with the
    payload built from that answer. *)
Theorem createPayPalPayment_navigates_to_the_return_url
    {S : Type} (env : Surroundings) (mode : PaymentMode) (paypalOrderId : string)
    (w : World S) (u : Url) :
  let evs := events_of (PaymentFlows.createPayPalPayment (flowsOptions env mode)
                          (url_is_valid env) paypalOrderId) w in
  In (Navigate u) evs ->
  exists res,
    on_capturePayPalOrder env paypalOrderId = Ok res /\
    merchantReturnUrl res = Some (href u) /\
    href u <> "" /\
    url_is_valid env (href u) = true /\
    searchParams u = confirmation_params res /\
    last evs = Some (Navigate u) /\
    count is_navigate evs = 1%nat /\
    count is_error_callback evs = 0%nat /\
    (forall res' r, In (OnComplete res' r) evs ->
       res' = settlement_payload paypalOrderId res /\ r = Ok tt) /\
    (defined (completion_callback env) = true -> count is_completion evs = 1%nat).
Proof.
  destruct w as [s t]. cbv zeta. unfold_flows. new_events.
  destruct (error_callback env) as [f|]; cbn [fmap option_fmap option_map];
    answers env.
  all: intros Hin; cbn [In] in Hin.
  all: repeat (destruct Hin as [Heq|Hin]; [try discriminate Heq|]); try contradiction.
  all: injection Heq as <-.
  all: eexists; split; [reflexivity|].
  all: match goal with
       | H : truthy (merchantReturnUrl ?res) = true |- _ =>
           destruct (merchantReturnUrl res) as [url|] eqn:Hurl; [|discriminate H];
           cbn [default] in *;
           split; [reflexivity|];
           split; [intros Hempty; cbn in Hempty; subst url; discriminate H|]
       end.
  all: split; [assumption|].
  all: split; [reflexivity|]; split; [reflexivity|]; split; [reflexivity|].
  all: split; [reflexivity|].
  all: split; [|first [reflexivity | discriminate]].
  all: intros res' r' Hin'; cbn [In] in Hin'.
  all: repeat (destruct Hin' as [Heq'|Hin']; [try discriminate Heq'|]); try contradiction.
  all: injection Heq' as <- <-; split; [reflexivity|].
  all: repeat match goal with u : unit |- _ => destruct u end; reflexivity.
Qed.

Lemma createPayPalPayment_navigation_witness :
  let env := checkout (Ok None) returns_normally 1999 in
  let evs := events_of (PaymentFlows.createPayPalPayment (flowsOptions env payment)
                          (url_is_valid env) "EC-1") {| store := tt; trace := [] |} in
  let u := {| href := "https://shop.example/thanks";
              searchParams := [("paymentReference", "payment-0"); ("orderId", "order-0");
                               ("orderNumber", ""); ("paymentMethod", "paypal");
                               ("status", "completed")] |} in
  In (Navigate u) evs /\
  exists res,
    on_capturePayPalOrder env "EC-1" = Ok res /\
    merchantReturnUrl res = Some (href u) /\
    href u <> "" /\
    url_is_valid env (href u) = true /\
    searchParams u = confirmation_params res.
Proof.
  cbv zeta.
  assert (Hin : In (Navigate
                      {| href := "https://shop.example/thanks";
                         searchParams := [("paymentReference", "payment-0");
                                          ("orderId", "order-0"); ("orderNumber", "");
                                          ("paymentMethod", "paypal");
                                          ("status", "completed")] |})
                   (events_of (PaymentFlows.createPayPalPayment
                                 (flowsOptions (checkout (Ok None) returns_normally 1999)
                                    payment)
                                 (url_is_valid (checkout (Ok None) returns_normally 1999))
                                 "EC-1") {| store := tt; trace := [] |}))
    by (vm_compute; do 3 right; left; reflexivity).
  split; [exact Hin|].
  destruct (createPayPalPayment_navigates_to_the_return_url _ payment "EC-1" _ _ Hin)
    as (res & Hres & Hurl & Hne & Hvalid & Hparams & _).
  exists res. repeat split; assumption.
Defined.

(** X10. When the processor settled the order but answers with a non-empty
    return URL that does not parse, createPayPalPayment has already told
    the completion callback of the success when the URL is rejected: with
    both callbacks supplied and the completion callback returning normally,
    the completion callback and then the error callback (with the error
    "Invalid URL") are both invoked, and the page does not navigate. *)
Theorem createPayPalPayment_unparseable_return_url
    {S : Type} (env : Surroundings) (mode : PaymentMode) (paypalOrderId : string)
    (w : World S) (res : PayPalCaptureResponse)
    (cb : PaymentResult -> result unit) (f : exn -> result unit) :
  on_capturePayPalOrder env paypalOrderId = Ok res ->
  truthy (merchantReturnUrl res) = true ->
  url_is_valid env (default "" (merchantReturnUrl res)) = false ->
  completion_callback env = Some cb ->
  cb (settlement_payload paypalOrderId res) = Ok tt ->
  error_callback env = Some f ->
  let run := PaymentFlows.createPayPalPayment (flowsOptions env mode) (url_is_valid env)
               paypalOrderId in
  events_of run w =
    [ ApiCapturePayPalOrder paypalOrderId (Ok res);
      OnComplete (settlement_payload paypalOrderId res) (Ok tt);
      Log console_error "Error processing PayPal payment:";
      OnError (Error "Invalid URL") (f (Error "Invalid URL")) ] /\
  (run w).1 = f (Error "Invalid URL").
Proof.
  intros Hres Htruthy Hinvalid Hcb Hreturns Hf. destruct w as [s t]. cbv zeta.
  unfold settlement_payload in *.
  unfold_flows. new_events. rewrite Hcb, Hf, Hres. cbn [fmap option_fmap option_map].
  unfold_monad. rewrite Hreturns. unfold_monad. rewrite Htruthy, Hinvalid. unfold_monad.
  rewrite <- ?app_assoc, ?drop_app_length.
  destruct (f (Error "Invalid URL")); unfold_monad;
    rewrite <- ?app_assoc, ?drop_app_length; split; reflexivity.
Qed.

Lemma createPayPalPayment_unparseable_witness :
  let env := with_capture (fun _ => Ok relative_capture)
               (checkout (Ok None) returns_normally 1999) in
  let run := PaymentFlows.createPayPalPayment (flowsOptions env payment) (url_is_valid env)
               "EC-1" in
  List.filter is_callback (events_of run {| store := tt; trace := [] |}) =
    [ OnComplete (settlement_payload "EC-1" relative_capture) (Ok tt);
      OnError (Error "Invalid URL") (Ok tt) ].
Proof.
  cbv zeta.
  rewrite (proj1 (createPayPalPayment_unparseable_return_url
                    (with_capture (fun _ => Ok relative_capture)
                       (checkout (Ok None) returns_normally 1999))
                    payment "EC-1" {| store := tt; trace := [] |} relative_capture
                    returns_normally (fun _ => Ok tt)
                    eq_refl eq_refl eq_refl eq_refl eq_refl eq_refl)).
  reflexivity.
Defined.

(** ** The amount handed to the provider *)









(** ** The PayPal button's approval *)

(** X12. onApprove captures the PayPal order on the client first and asks
    the processor to record it only when that capture succeeded, at most
    once and for the order id the button approved.  When the client-side
    capture is rejected, the processor is not called and the error callback
    receives that error.  With an error callback that returns normally,
    onApprove never rejects and invokes the error callback at most once. *)
Theorem onApprove_records_only_a_captured_order
    (env : Surroundings) (mode : PaymentMode) (orderID : string)
    (w : World PE.Component) :
  let run := PE.onApprove env mode orderID in
  let evs := events_of run w in
  head evs = Some (PayPalOrderCapture (on_order_capture env)) /\
  (forall id r, In (ApiCapturePayPalOrder id r) evs ->
     id = orderID /\ on_order_capture env = Ok tt) /\
  (count is_capture_request evs <= 1)%nat /\
  (forall e f, on_order_capture env = Throw e -> error_callback env = Some f ->
     run w = (f e, mkWorld (store w)
                     (trace w ++ [ PayPalOrderCapture (Throw e);
                                   Log console_error "Error capturing PayPal order:";
                                   OnError e (f e) ]))) /\
  (forall f, error_callback env = Some f -> (forall err, f err = Ok tt) ->
     (run w).1 = Ok tt /\ (count is_error_callback evs <= 1)%nat).
Proof.
  destruct w as [c t]. cbv zeta.
  unfold PE.onApprove, PE.onError. unfold_flows. new_events.
  destruct (error_callback env) as [f|] eqn:Hf; cbn [fmap option_fmap option_map];
    answers env.
  all: repeat match goal with u : unit |- _ => destruct u end.
  all: split; [reflexivity|].
  all: split; [intros id r Hin; cbn [In] in Hin;
               repeat (destruct Hin as [Heq|Hin]; [try discriminate Heq|]);
               try contradiction; injection Heq as <- _; split; reflexivity|].
  all: split; [cbn; lia|].
  all: split; [intros e' f' [=] [=]; subst; unfold_monad; rewrite <- ?app_assoc;
               reflexivity|].
  all: intros f' [=] Hreturns; subst.
  all: try match goal with
           | H : _ = Throw _ |- _ => rewrite Hreturns in H; discriminate H
           end.
  all: rewrite ?Hreturns; split; [reflexivity | cbn; lia].
Qed.

Lemma onApprove_witness_approved_order :
  let env := checkout (Ok None) returns_normally 1999 in
  let run := PE.onApprove env payment "EC-1" in
  (run (mounted env)).1 = Ok tt /\
  (count is_error_callback (events_of run (mounted env)) <= 1)%nat /\
  (count is_capture_request (events_of run (mounted env)) <= 1)%nat.
Proof.
  cbv zeta.
  destruct (onApprove_records_only_a_captured_order
              (checkout (Ok None) returns_normally 1999) payment "EC-1"
              (mounted (checkout (Ok None) returns_normally 1999)))
    as (_ & _ & Hone & _ & Hreturns).
  destruct (Hreturns (fun _ => Ok tt) eq_refl (fun _ => eq_refl)) as [Hok Hcallback].
  split; [exact Hok|]. split; [exact Hcallback | exact Hone].
Defined.

(** ** Mounting the widget *)

Ltac unfold_widget :=
  cbv [bind try_catch call ask emit log ret throw deref get_store modify_store
       store trace fst snd negb andb defined
       PE.isPayPalSelected PE.paypalMounted PE.paypalConfig PE.document
       PE.paypalOptionListener PE.stripeListeners PE.paypalButtons
       PE.set_isPayPalSelected PE.set_paypalMounted PE.set_paypalConfig
       PE.set_document PE.set_paypalOptionListener PE.set_stripeListeners
       PE.set_paypalButtons PE.appendElement PE.with_element PE.new_component
       PE.addCustomStyles].



(** ** What the component listens to *)






(** ** What the selection shows *)







(** ** Selecting and deselecting compose *)

Lemma classList_add_twice (cls : string) (e : PE.Element) :
  PE.classList_add cls (PE.classList_add cls e) = PE.classList_add cls e.
Proof.
  destruct e as [classes d o p]. unfold PE.classList_add. cbn.
  destruct (bool_decide (cls ∈ classes)) eqn:Hin; cbn.
  - rewrite Hin. reflexivity.
  - rewrite bool_decide_eq_true_2; [reflexivity|]. set_solver.
Qed.

Lemma classList_remove_add (cls : string) (e : PE.Element) :
  PE.classList_remove cls (PE.classList_add cls e) = PE.classList_remove cls e.
Proof.
  destruct e as [classes d o p]. unfold PE.classList_remove, PE.classList_add. cbn.
  destruct (bool_decide (cls ∈ classes)); [reflexivity|].
  rewrite filter_app, filter_cons_False, filter_nil, app_nil_r
    by (intros Hne; apply Hne; reflexivity).
  reflexivity.
Qed.

Lemma classList_remove_twice (cls : string) (e : PE.Element) :
  PE.classList_remove cls (PE.classList_remove cls e) = PE.classList_remove cls e.
Proof.
  destruct e as [classes d o p]. unfold PE.classList_remove. cbn. f_equal.
  rewrite list_filter_filter. apply list_filter_iff. tauto.
Qed.

Lemma alter_alter {A} (f g : A -> A) (i : string) (m : gmap string A) :
  alter f i (alter g i m) = alter (fun x => f (g x)) i m.
Proof.
  apply map_eq. intros k. destruct (decide (i = k)) as [->|Hne].
  - rewrite !lookup_alter_eq. destruct (m !! k); reflexivity.
  - rewrite !lookup_alter_ne by exact Hne. reflexivity.
Qed.

Lemma alter_swap {A} (f g : A -> A) (i j : string) (m : gmap string A) :
  i <> j -> alter f i (alter g j m) = alter g j (alter f i m).
Proof.
  intros Hne. apply map_eq. intros k.
  destruct (decide (i = k)) as [->|Hik], (decide (j = k)) as [->|Hjk];
    try congruence;
    repeat first [rewrite lookup_alter_eq | rewrite lookup_alter_ne by congruence];
    reflexivity.
Qed.

Lemma alter_same {A} (f g : A -> A) (i : string) (m m' : gmap string A) :
  (forall x, f x = g x) -> m = m' -> alter f i m = alter g i m'.
Proof. intros Hfg <-. apply alter_ext. intros x _. apply Hfg. Qed.

(** Two rounds of the three updates of the document, key by key. *)
Lemma document_updates (f1 g1 f2 g2 f3 g3 : PE.Element -> PE.Element)
    (d : gmap string PE.Element) :
  alter f3 PE.stripe_container_id
    (alter f2 PE.paypal_wrapper_id
       (alter f1 PE.paypal_option_id
          (alter g3 PE.stripe_container_id
             (alter g2 PE.paypal_wrapper_id (alter g1 PE.paypal_option_id d))))) =
  alter (fun e => f3 (g3 e)) PE.stripe_container_id
    (alter (fun e => f2 (g2 e)) PE.paypal_wrapper_id
       (alter (fun e => f1 (g1 e)) PE.paypal_option_id d)).
Proof.
  rewrite (alter_swap f1 g3), (alter_swap f1 g2), alter_alter by discriminate.
  rewrite (alter_swap f2 g3), alter_alter by discriminate.
  rewrite alter_alter. reflexivity.
Qed.

(** X16. Selecting the wallet twice is the same as selecting it once, and
    so is deselecting; deselecting after selecting leaves the component as
    deselecting alone does, whatever the document held before. *)
Theorem selection_updates_compose (c : PE.Component) :
  PE.selectPayPal (PE.selectPayPal c) = PE.selectPayPal c /\
  PE.deselectPayPal (PE.deselectPayPal c) = PE.deselectPayPal c /\
  PE.deselectPayPal (PE.selectPayPal c) = PE.deselectPayPal c.
Proof.
  destruct c as [sel mnt cfg doc ol sl btn].
  unfold PE.selectPayPal, PE.deselectPayPal. unfold_widget.
  repeat split; f_equal; rewrite document_updates.
  all: repeat (apply alter_same; [intros [classes d o p]|]); try reflexivity.
  - apply classList_add_twice.
  - apply classList_remove_twice.
  - apply classList_remove_add.
Qed.
